(** * Credit ledger of the Django helpers: models, views and their properties

    The repository holds three variants of one small Django application:

    - [Tracker]      (helpers.py):  purchase an amount posted in a form, use an
                                    amount given in the URL, summary page;
    - [CreditSystem] (helpers1.py): fixed-size purchases and the reusable
                                    [use_credits] utility, whose usage rows carry
                                    a generic foreign key;
    - [PostBoost]    (helpers3.py): fixed-size purchases and [boost_post].

    The database is modelled as a record of tables.  A table with a unique
    key ([CreditBalance], one row per user through its [OneToOneField]) is a
    [gmap] from the key to the row's payload; the insert-only log tables are
    lists in insertion order.  A [DecimalField(decimal_places=2)] value is the
    integer number of hundredths it denotes, so [Decimal('50.00')] is [5000].
    Views are written in a state-and-exception monad whose actions are the ORM
    calls of the source; [atomic] is [transaction.atomic].

    A view is given what it reads from its request after Django has done its
    part: the primary key of the logged-in user (every view is
    [login_required]), amounts already parsed by [Decimal(...)], and the
    clock reading that [auto_now_add] stores.  Flash messages are kept by
    their level, redirects by the name of the view they [reverse]. *)

From stdpp Require Import gmap strings list sorting pretty.

Local Open Scope Z_scope.

(** ** Values shared by the three applications *)

(** Hundredths of a credit. *)
Abbreviation Decimal := Z (only parsing).

(** Primary key of an authenticated user ([request.user]). *)
Abbreviation User := nat (only parsing).

(** Value of [timezone.now()] when a row is created ([auto_now_add]). *)
Abbreviation Timestamp := nat (only parsing).

(** Level of the flash message queued by [messages.success] / [messages.warning]. *)
Inductive Level : Type :=
| success
| warning.

(** Exceptions that escape a view: the two of Django's shortcuts and ORM that
    the source can meet, a signal of Python's [decimal] module
    ([InvalidOperation], [Overflow]), the [ValidationError] of a model field
    and the [IntegrityError] of a row that breaks a column constraint. *)
Inductive Exn : Type :=
| Http404
| DoesNotExist
| DecimalException
| ValidationError
| IntegrityError.

(** ** The transaction monad *)

(** A database action: it runs on a store [S] and either returns a value or
    raises, and in both cases leaves a store behind. *)
Definition Txn (S A : Type) : Type := S → (Exn + A) * S.

Section txn.
Context {S : Type}.

Definition txn_ret {A} (a : A) : Txn S A := λ s, (inr a, s).

Definition txn_bind {A B} (f : A → Txn S B) (m : Txn S A) : Txn S B :=
  λ s, match m s with
       | (inr a, s') => f a s'
       | (inl e, s') => (inl e, s')
       end.

Definition raise {A} (e : Exn) : Txn S A := λ s, (inl e, s).

Definition gets {A} (f : S → A) : Txn S A := λ s, (inr (f s), s).

Definition modify (f : S → S) : Txn S unit := λ s, (inr tt, f s).

(** [transaction.atomic]: the writes of the body are committed when it
    returns and rolled back when it raises. *)
Definition atomic {A} (m : Txn S A) : Txn S A :=
  λ s, match m s with
       | (inr a, s') => (inr a, s')
       | (inl e, _) => (inl e, s)
       end.

(** The store a call leaves behind, and what it returned. *)
Definition exec {A} (m : Txn S A) (s : S) : S := (m s).2.
Definition outcome {A} (m : Txn S A) (s : S) : Exn + A := (m s).1.
End txn.

#[global] Instance txn_mret {S} : MRet (Txn S) := @txn_ret S.
#[global] Instance txn_mbind {S} : MBind (Txn S) := @txn_bind S.

(** ** Query-set operations *)

(** Python's [sum(...)]: a left fold that starts from [0]. *)
Definition py_sum (xs : list Decimal) : Decimal := foldl Z.add 0 xs.

(** The mathematical sum of a list of amounts. *)
Definition total (xs : list Decimal) : Decimal := foldr Z.add 0 xs.

(** [qs.order_by('-date')] for rows whose date is read by [date]. *)
Definition newer_first {A} (date : A → Timestamp) : relation A :=
  λ r1 r2, (date r2 ≤ date r1)%nat.

#[global] Instance newer_first_dec {A} (date : A → Timestamp) :
  RelDecision (newer_first date).
Proof. intros r1 r2. unfold newer_first. apply _. Defined.

Definition order_by_date_desc {A} (date : A → Timestamp) (rows : list A) : list A :=
  merge_sort (newer_first date) rows.

(** [CreditBalance.objects.get_or_create(user=u)] on the balance table: the
    row's balance, the table afterwards and the [created] flag.  A missing row
    is inserted with the field default [0]. *)
Definition get_or_create_row (u : User) (tbl : gmap User Decimal)
  : Decimal * bool * gmap User Decimal :=
  match tbl !! u with
  | Some b => (b, false, tbl)
  | None => (0, true, <[u := 0]> tbl)
  end.

(** The balance a reader of the table sees for [u]: the stored one, and the
    default of a row about to be created otherwise. *)
Definition balance_of (tbl : gmap User Decimal) (u : User) : Decimal :=
  default 0 (tbl !! u).

(** ** Python decimals and the [DecimalField] column

    [Decimal(...)] of a request string is exact: a finite number keeps every
    digit it was written with, and the strings "Infinity" and "NaN" give the
    special values.  Arithmetic rounds its exact result to the 28 significant
    digits of the default context, half to even.  A [DecimalField(max_digits=10,
    decimal_places=2)] stores what [format_number] makes of the value: the value
    rounded half to even to two places, and an [InvalidOperation] when that
    needs more than ten digits; [to_python] refuses a value that is not
    finite. *)

Inductive PyDecimal : Type :=
| Finite (coefficient exponent : Z)
| Infinite (negative : bool)
| NaN.

(** [getcontext().prec], [max_digits] and [decimal_places]. *)
Definition PREC : Z := 28.
Definition MAX_DIGITS : Z := 10.
Definition DECIMAL_PLACES : Z := 2.

(** Number of decimal digits of a natural number, none for [0]. *)
Fixpoint digits_fuel (fuel : nat) (n : Z) : Z :=
  match fuel with
  | O => 0
  | S fuel => if n =? 0 then 0 else 1 + digits_fuel fuel (n / 10)
  end.

Definition digits (n : Z) : Z :=
  digits_fuel (S (Z.to_nat (Z.log2 (Z.abs n)))) (Z.abs n).

(** [n / d] rounded to the nearest integer, a tie to the even one
    ([ROUND_HALF_EVEN]); [d] is positive. *)
Definition round_half_even (n d : Z) : Z :=
  let q := n / d in
  let r := n mod d in
  if 2 * r <? d then q
  else if d <? 2 * r then q + 1
  else if Z.even q then q else q + 1.

(** The number [c * 10 ^ e] rounded to the precision of the context. *)
Definition round_to_context (c e : Z) : PyDecimal :=
  let k := digits c - PREC in
  if 0 <? k then Finite (round_half_even c (10 ^ k)) (e + k) else Finite c e.

(** A stored amount, as the ORM hands it to Python. *)
Definition from_column (h : Decimal) : PyDecimal := Finite h (- DECIMAL_PLACES).

(** The value, in hundredths, of a number written with at most two places. *)
Definition hundredths_of (c e : Z) : Decimal := c * 10 ^ (e + DECIMAL_PLACES).

(** [x >= y]; an ordering comparison with a NaN raises. *)
Definition py_ge (x y : PyDecimal) : Exn + bool :=
  match x, y with
  | NaN, _ | _, NaN => inl DecimalException
  | Finite c1 e1, Finite c2 e2 =>
      let e := e1 `min` e2 in
      inr (bool_decide (c2 * 10 ^ (e2 - e) ≤ c1 * 10 ^ (e1 - e)))
  | Finite _ _, Infinite negative => inr negative
  | Infinite negative, Finite _ _ => inr (negb negative)
  | Infinite n1, Infinite n2 => inr (implb n1 n2)
  end.

Definition py_neg (x : PyDecimal) : PyDecimal :=
  match x with
  | Finite c e => Finite (- c) e
  | Infinite negative => Infinite (negb negative)
  | NaN => NaN
  end.

(** [x + y]. *)
Definition py_add (x y : PyDecimal) : Exn + PyDecimal :=
  match x, y with
  | NaN, _ | _, NaN => inr NaN
  | Finite c1 e1, Finite c2 e2 =>
      let e := e1 `min` e2 in
      inr (round_to_context (c1 * 10 ^ (e1 - e) + c2 * 10 ^ (e2 - e)) e)
  | Finite _ _, Infinite negative | Infinite negative, Finite _ _ =>
      inr (Infinite negative)
  | Infinite n1, Infinite n2 =>
      if bool_decide (n1 = n2) then inr (Infinite n1) else inl DecimalException
  end.

(** [x - y]. *)
Definition py_sub (x y : PyDecimal) : Exn + PyDecimal := py_add x (py_neg y).

(** What saving [x] into a [DecimalField(max_digits=10, decimal_places=2)]
    stores, in hundredths. *)
Definition to_column (x : PyDecimal) : Exn + Decimal :=
  match x with
  | Finite c e =>
      let h := if - DECIMAL_PLACES <=? e then c * 10 ^ (e + DECIMAL_PLACES)
               else round_half_even c (10 ^ (- DECIMAL_PLACES - e)) in
      if 10 ^ MAX_DIGITS <=? Z.abs h then inl DecimalException else inr h
  | Infinite _ | NaN => inl ValidationError
  end.

(** A value of Python in the middle of a view: it is there or it raised. *)
Definition lift {S A} (r : Exn + A) : Txn S A := λ s, (r, s).

(** ** helpers.py: the credit tracker *)

Module Tracker.

Record CreditPurchase : Type := {
  purchase_user : User;
  purchase_amount : Decimal;
  purchase_date : Timestamp
}.

Record CreditUsage : Type := {
  usage_user : User;
  usage_amount : Decimal;
  usage_date : Timestamp;
  usage_description : string
}.

(** The three tables of the application. *)
Record State : Type := {
  purchases : list CreditPurchase;
  usages : list CreditUsage;
  balances : gmap User Decimal
}.

Inductive Method : Type :=
| GET
| POST.

(** What the views read from a request: the logged-in user (the views are
    [login_required]), the method and the form field [amount] when present. *)
Record Request : Type := {
  user : User;
  method : Method;
  post_amount : option Decimal
}.

Record SummaryContext : Type := {
  total_purchased : Decimal;
  total_used : Decimal;
  current_balance : Decimal;
  recent_purchases : list CreditPurchase;
  recent_usages : list CreditUsage
}.

Inductive Response : Type :=
| Redirect (view : string) (flash : Level)
| RenderSummary (context : SummaryContext)
| RenderPurchaseForm.

(** [CreditPurchase.objects.filter(user=u)] and its sibling. *)
Definition purchases_of (u : User) (st : State) : list CreditPurchase :=
  filter (λ r, purchase_user r = u) (purchases st).

Definition usages_of (u : User) (st : State) : list CreditUsage :=
  filter (λ r, usage_user r = u) (usages st).

Definition get_or_create (u : User) : Txn State (Decimal * bool) :=
  λ st, let '(b, created, tbl) := get_or_create_row u (balances st) in
        (inr (b, created),
         {| purchases := purchases st; usages := usages st; balances := tbl |}).

(** [balance.save()] after [balance.balance] was set to [b]. *)
Definition save_balance (u : User) (b : Decimal) : Txn State unit :=
  modify (λ st, {| purchases := purchases st; usages := usages st;
                   balances := <[u := b]> (balances st) |}).

Definition create_purchase (r : CreditPurchase) : Txn State unit :=
  modify (λ st, {| purchases := purchases st ++ [r]; usages := usages st;
                   balances := balances st |}).

Definition create_usage (r : CreditUsage) : Txn State unit :=
  modify (λ st, {| purchases := purchases st; usages := usages st ++ [r];
                   balances := balances st |}).

Definition credit_summary (request : Request) : Txn State Response :=
  purchases ← gets (purchases_of (user request));
  usages ← gets (usages_of (user request));
  '(balance, created) ← get_or_create (user request);
  mret (RenderSummary {|
    total_purchased := py_sum (purchase_amount <$> purchases);
    total_used := py_sum (usage_amount <$> usages);
    current_balance := balance;
    recent_purchases := take 5 (order_by_date_desc purchase_date purchases);
    recent_usages := take 5 (order_by_date_desc usage_date usages)
  |}).

Definition use_credit (request : Request) (amount : Decimal) (now : Timestamp)
  : Txn State Response :=
  atomic (
    '(balance, created) ← get_or_create (user request);
    if bool_decide (amount ≤ balance) then
      save_balance (user request) (balance - amount);;
      create_usage {| usage_user := user request; usage_amount := amount;
                      usage_date := now; usage_description := "Credit usage" |};;
      mret (Redirect "credit_tracker:summary" success)
    else
      mret (Redirect "credit_tracker:purchase" warning)).

Definition purchase_credit (request : Request) (now : Timestamp)
  : Txn State Response :=
  atomic (
    match method request with
    | POST =>
        let amount := default 0 (post_amount request) in
        create_purchase {| purchase_user := user request;
                           purchase_amount := amount; purchase_date := now |};;
        '(balance, created) ← get_or_create (user request);
        save_balance (user request) (balance + amount);;
        mret (Redirect "credit_tracker:summary" success)
    | GET => mret RenderPurchaseForm
    end).

(** The requests the URL configuration routes to the ledger. *)
Inductive Call : Type :=
| Summary (request : Request)
| Use (request : Request) (amount : Decimal) (now : Timestamp)
| Purchase (request : Request) (now : Timestamp).

Definition handle (c : Call) : Txn State Response :=
  match c with
  | Summary request => credit_summary request
  | Use request amount now => use_credit request amount now
  | Purchase request now => purchase_credit request now
  end.

Definition run (cs : list Call) (st : State) : State :=
  foldl (λ s c, exec (handle c) s) st cs.

(** The cached balance agrees with the logs, for every user. *)
Definition consistent (st : State) : Prop :=
  ∀ u, balance_of (balances st) u =
       total (purchase_amount <$> purchases_of u st)
       - total (usage_amount <$> usages_of u st).

(** The rows and the template context that the views build. *)
Definition usage_row (request : Request) (amount : Decimal) (now : Timestamp)
  : CreditUsage :=
  {| usage_user := user request; usage_amount := amount; usage_date := now;
     usage_description := "Credit usage" |}.

Definition purchase_row (request : Request) (now : Timestamp) : CreditPurchase :=
  {| purchase_user := user request;
     purchase_amount := default 0 (post_amount request);
     purchase_date := now |}.

Definition summary_of (request : Request) (st : State) : SummaryContext :=
  {| total_purchased := py_sum (purchase_amount <$> purchases_of (user request) st);
     total_used := py_sum (usage_amount <$> usages_of (user request) st);
     current_balance := balance_of (balances st) (user request);
     recent_purchases :=
       take 5 (order_by_date_desc purchase_date (purchases_of (user request) st));
     recent_usages :=
       take 5 (order_by_date_desc usage_date (usages_of (user request) st)) |}.

(** *** [use_credit], one database statement at a time

    The body of [use_credit] issues three statements: the [get_or_create]
    that reads the balance, the [save] that writes the new balance computed from
    what was read, and the [create] of the usage row.  A request in flight is
    between two of them. *)

Inductive Progress : Type :=
| Start
| Checked (balance : Decimal)
| Saved
| Finished (response : Response).

Definition use_credit_step (request : Request) (amount : Decimal) (now : Timestamp)
    (p : Progress) (st : State) : Progress * State :=
  match p with
  | Start =>
      let '(balance, _, tbl) := get_or_create_row (user request) (balances st) in
      let st' := {| purchases := purchases st; usages := usages st;
                    balances := tbl |} in
      if bool_decide (amount ≤ balance) then (Checked balance, st')
      else (Finished (Redirect "credit_tracker:purchase" warning), st')
  | Checked balance =>
      (Saved, exec (save_balance (user request) (balance - amount)) st)
  | Saved =>
      (Finished (Redirect "credit_tracker:summary" success),
       exec (create_usage (usage_row request amount now)) st)
  | Finished response => (Finished response, st)
  end.

Fixpoint use_credit_steps (n : nat) (request : Request) (amount : Decimal)
    (now : Timestamp) (p : Progress) (st : State) : Progress * State :=
  match n with
  | O => (p, st)
  | S n =>
      let '(p', st') := use_credit_step request amount now p st in
      use_credit_steps n request amount now p' st'
  end.

(** Two [use_credit] requests on one database, and whose statement is next. *)
Inductive Turn : Type :=
| first
| second.

Record Race : Type := {
  progress_1 : Progress;
  progress_2 : Progress;
  store : State
}.

Definition race_step (request_1 request_2 : Request) (amount_1 amount_2 : Decimal)
    (now_1 now_2 : Timestamp) (x : Race) (t : Turn) : Race :=
  match t with
  | first =>
      let '(p, st) := use_credit_step request_1 amount_1 now_1 (progress_1 x) (store x) in
      {| progress_1 := p; progress_2 := progress_2 x; store := st |}
  | second =>
      let '(p, st) := use_credit_step request_2 amount_2 now_2 (progress_2 x) (store x) in
      {| progress_1 := progress_1 x; progress_2 := p; store := st |}
  end.

Definition race (request_1 request_2 : Request) (amount_1 amount_2 : Decimal)
    (now_1 now_2 : Timestamp) (schedule : list Turn) (st : State) : Race :=
  foldl (race_step request_1 request_2 amount_1 amount_2 now_1 now_2)
        {| progress_1 := Start; progress_2 := Start; store := st |} schedule.

(** *** Sample data *)

Definition empty : State :=
  {| purchases := []; usages := []; balances := ∅ |}.

Definition alice_posts (amount : Decimal) : Request :=
  {| user := 1%nat; method := POST; post_amount := Some amount |}.

Definition one_credit : State :=
  {| purchases := [{| purchase_user := 1%nat; purchase_amount := 100;
                      purchase_date := 1%nat |}];
     usages := [];
     balances := {[ 1%nat := 100 ]} |}.

End Tracker.

(** ** helpers1.py: the credit system and its [use_credits] utility *)

Module CreditSystem.

Record CreditPurchase : Type := {
  purchase_user : User;
  purchase_amount : Decimal;
  purchase_date : Timestamp
}.

(** [content_type] and [object_id] are the two columns behind the generic
    foreign key [content_object]. *)
Record CreditUsage : Type := {
  usage_user : User;
  usage_amount : Decimal;
  usage_date : Timestamp;
  usage_description : string;
  content_type : string;
  object_id : nat
}.

(** A saved model instance of another application, as the generic foreign
    key sees it: the name of its model and its primary key. *)
Record ContentObject : Type := {
  model : string;
  pk : nat
}.

(** The tables of the application, and next to them the tables [E] of the
    applications whose entities the usage rows point to. *)
Record State {E : Type} : Type := {
  purchases : list CreditPurchase;
  usages : list CreditUsage;
  balances : gmap User Decimal;
  entities : E
}.
Arguments State : clear implicits.

Record SummaryContext : Type := {
  total_purchased : Decimal;
  total_used : Decimal;
  current_balance : Decimal;
  recent_purchases : list CreditPurchase;
  recent_usages : list CreditUsage
}.

Inductive Response : Type :=
| Redirect (view : string) (flash : Level)
| RenderSummary (context : SummaryContext).

Definition CREDIT_PURCHASE_AMOUNT : Decimal := 5000.

Section views.
Context {E : Type}.

Definition purchases_of (u : User) (st : State E) : list CreditPurchase :=
  filter (λ r, purchase_user r = u) (purchases st).

Definition usages_of (u : User) (st : State E) : list CreditUsage :=
  filter (λ r, usage_user r = u) (usages st).

Definition get_or_create (u : User) : Txn (State E) (Decimal * bool) :=
  λ st, let '(b, created, tbl) := get_or_create_row u (balances st) in
        (inr (b, created),
         {| purchases := purchases st; usages := usages st; balances := tbl;
            entities := entities st |}).

(** [CreditBalance.objects.get(user=u)]. *)
Definition get (u : User) : Txn (State E) Decimal :=
  λ st, match balances st !! u with
        | Some b => (inr b, st)
        | None => (inl DoesNotExist, st)
        end.

Definition save_balance (u : User) (b : Decimal) : Txn (State E) unit :=
  modify (λ st, {| purchases := purchases st; usages := usages st;
                   balances := <[u := b]> (balances st);
                   entities := entities st |}).

Definition create_purchase (r : CreditPurchase) : Txn (State E) unit :=
  modify (λ st, {| purchases := purchases st ++ [r]; usages := usages st;
                   balances := balances st; entities := entities st |}).

Definition create_usage (r : CreditUsage) : Txn (State E) unit :=
  modify (λ st, {| purchases := purchases st; usages := usages st ++ [r];
                   balances := balances st; entities := entities st |}).

Definition check_credit_balance (u : User) (amount : Decimal)
  : Txn (State E) bool :=
  '(balance, _) ← get_or_create u;
  mret (bool_decide (amount ≤ balance)).

Definition use_credits (u : User) (amount : Decimal) (description : string)
    (content_object : ContentObject) (now : Timestamp) : Txn (State E) bool :=
  atomic (
    enough ← check_credit_balance u amount;
    if enough : bool then
      balance ← get u;
      save_balance u (balance - amount);;
      create_usage {| usage_user := u; usage_amount := amount;
                      usage_date := now; usage_description := description;
                      content_type := model content_object;
                      object_id := pk content_object |};;
      mret true
    else mret false).

Definition credit_summary (u : User) : Txn (State E) Response :=
  purchases ← gets (purchases_of u);
  usages ← gets (usages_of u);
  '(balance, created) ← get_or_create u;
  mret (RenderSummary {|
    total_purchased := py_sum (purchase_amount <$> purchases);
    total_used := py_sum (usage_amount <$> usages);
    current_balance := balance;
    recent_purchases := take 5 (order_by_date_desc purchase_date purchases);
    recent_usages := take 5 (order_by_date_desc usage_date usages)
  |}).

Definition purchase_credit (u : User) (now : Timestamp)
  : Txn (State E) Response :=
  atomic (
    '(balance, created) ← get_or_create u;
    save_balance u (balance + CREDIT_PURCHASE_AMOUNT);;
    create_purchase {| purchase_user := u;
                       purchase_amount := CREDIT_PURCHASE_AMOUNT;
                       purchase_date := now |};;
    mret (Redirect "credit_system:summary" success)).

(** The usage row a successful call writes. *)
Definition usage_row (u : User) (amount : Decimal) (description : string)
    (content_object : ContentObject) (now : Timestamp) : CreditUsage :=
  {| usage_user := u; usage_amount := amount; usage_date := now;
     usage_description := description;
     content_type := model content_object;
     object_id := pk content_object |}.

Definition consistent (st : State E) : Prop :=
  ∀ u, balance_of (balances st) u =
       total (purchase_amount <$> purchases_of u st)
       - total (usage_amount <$> usages_of u st).
End views.

(** *** Sample data *)

Definition post_7 : ContentObject := {| model := "post"; pk := 7 |}.

Definition no_rows : State unit :=
  {| purchases := []; usages := []; balances := ∅; entities := tt |}.

Definition fifty_credits : State unit :=
  {| purchases := [{| purchase_user := 1%nat;
                      purchase_amount := CREDIT_PURCHASE_AMOUNT;
                      purchase_date := 1%nat |}];
     usages := [];
     balances := {[ 1%nat := 5000 ]};
     entities := tt |}.

End CreditSystem.

(** ** helpers3.py: the credit tracker with boosted posts *)

Module PostBoost.

Record CreditPurchase : Type := {
  purchase_user : User;
  purchase_amount : Decimal;
  purchase_date : Timestamp
}.

Record CreditUsage : Type := {
  usage_user : User;
  usage_amount : Decimal;
  usage_date : Timestamp;
  usage_description : string
}.

Record Post : Type := {
  post_user : User;
  content : string;
  is_boosted : bool;
  created_at : Timestamp
}.

(** The posts are keyed by their primary key [id]. *)
Record State : Type := {
  purchases : list CreditPurchase;
  usages : list CreditUsage;
  balances : gmap User Decimal;
  posts : gmap nat Post
}.

Record SummaryContext : Type := {
  total_purchased : Decimal;
  total_used : Decimal;
  current_balance : Decimal;
  recent_purchases : list CreditPurchase;
  recent_usages : list CreditUsage
}.

Inductive Response : Type :=
| Redirect (view : string) (flash : Level)
| RenderSummary (context : SummaryContext).

Definition CREDIT_PURCHASE_AMOUNT : Decimal := 5000.
Definition BOOST_COST : Decimal := 100.

Definition purchases_of (u : User) (st : State) : list CreditPurchase :=
  filter (λ r, purchase_user r = u) (purchases st).

Definition usages_of (u : User) (st : State) : list CreditUsage :=
  filter (λ r, usage_user r = u) (usages st).

Definition get_or_create (u : User) : Txn State (Decimal * bool) :=
  λ st, let '(b, created, tbl) := get_or_create_row u (balances st) in
        (inr (b, created),
         {| purchases := purchases st; usages := usages st; balances := tbl;
            posts := posts st |}).

Definition save_balance (u : User) (b : Decimal) : Txn State unit :=
  modify (λ st, {| purchases := purchases st; usages := usages st;
                   balances := <[u := b]> (balances st); posts := posts st |}).

Definition create_purchase (r : CreditPurchase) : Txn State unit :=
  modify (λ st, {| purchases := purchases st ++ [r]; usages := usages st;
                   balances := balances st; posts := posts st |}).

Definition create_usage (r : CreditUsage) : Txn State unit :=
  modify (λ st, {| purchases := purchases st; usages := usages st ++ [r];
                   balances := balances st; posts := posts st |}).

(** [get_object_or_404(Post, id=post_id, user=u)]. *)
Definition get_object_or_404 (post_id : nat) (u : User) : Txn State Post :=
  λ st, match posts st !! post_id with
        | Some p => if decide (post_user p = u) then (inr p, st)
                    else (inl Http404, st)
        | None => (inl Http404, st)
        end.

(** [post.save()] for the instance loaded under [post_id]. *)
Definition save_post (post_id : nat) (p : Post) : Txn State unit :=
  modify (λ st, {| purchases := purchases st; usages := usages st;
                   balances := balances st;
                   posts := <[post_id := p]> (posts st) |}).

Definition set_boosted (p : Post) : Post :=
  {| post_user := post_user p; content := content p; is_boosted := true;
     created_at := created_at p |}.

Definition credit_summary (u : User) : Txn State Response :=
  purchases ← gets (purchases_of u);
  usages ← gets (usages_of u);
  '(balance, created) ← get_or_create u;
  mret (RenderSummary {|
    total_purchased := py_sum (purchase_amount <$> purchases);
    total_used := py_sum (usage_amount <$> usages);
    current_balance := balance;
    recent_purchases := take 5 (order_by_date_desc purchase_date purchases);
    recent_usages := take 5 (order_by_date_desc usage_date usages)
  |}).

Definition purchase_credit (u : User) (now : Timestamp) : Txn State Response :=
  atomic (
    '(balance, created) ← get_or_create u;
    save_balance u (balance + CREDIT_PURCHASE_AMOUNT);;
    create_purchase {| purchase_user := u;
                       purchase_amount := CREDIT_PURCHASE_AMOUNT;
                       purchase_date := now |};;
    mret (Redirect "credit_tracker:summary" success)).

Definition boost_post (u : User) (post_id : nat) (now : Timestamp)
  : Txn State Response :=
  atomic (
    post ← get_object_or_404 post_id u;
    '(balance, created) ← get_or_create u;
    flash ←
      (if bool_decide (BOOST_COST ≤ balance) then
         save_balance u (balance - BOOST_COST);;
         save_post post_id (set_boosted post);;
         create_usage {| usage_user := u; usage_amount := BOOST_COST;
                         usage_date := now;
                         usage_description :=
                           "Boost post (ID: " +:+ pretty post_id +:+ ")" |};;
         mret success
       else mret warning);
    mret (Redirect "credit_tracker:post_list" flash)).

Definition consistent (st : State) : Prop :=
  ∀ u, balance_of (balances st) u =
       total (purchase_amount <$> purchases_of u st)
       - total (usage_amount <$> usages_of u st).

(** The usage row a successful boost writes. *)
Definition boost_row (u : User) (post_id : nat) (now : Timestamp) : CreditUsage :=
  {| usage_user := u; usage_amount := BOOST_COST; usage_date := now;
     usage_description := "Boost post (ID: " +:+ pretty post_id +:+ ")" |}.

(** *** Sample data *)

Definition boosted_post : State :=
  {| purchases := [{| purchase_user := 1%nat;
                      purchase_amount := CREDIT_PURCHASE_AMOUNT;
                      purchase_date := 1%nat |}];
     usages := [boost_row 1%nat 7%nat 2%nat];
     balances := {[ 1%nat := 4900 ]};
     posts := {[ 7%nat := {| post_user := 1%nat; content := "hello";
                             is_boosted := true; created_at := 1%nat |} ]} |}.

End PostBoost.

(** ** helpers.py: who a request belongs to *)

Module TrackerTraces.
Import Tracker.

(** [request.user] of a routed request. *)
Definition caller (c : Call) : User :=
  match c with
  | Summary request => user request
  | Use request _ _ => user request
  | Purchase request _ => user request
  end.

(** The amount [purchase_credit] would add for this request: the posted field,
    [0] when the field is missing, and nothing on a [GET]. *)
Definition purchased (c : Call) : Decimal :=
  match c with
  | Purchase request _ =>
      match method request with
      | POST => default 0 (post_amount request)
      | GET => 0
      end
  | _ => 0
  end.

End TrackerTraces.

(** ** helpers1.py: sequences of calls *)

Module CreditSystemTraces.
Import CreditSystem.

Inductive Call : Type :=
| Summary (u : User)
| Purchase (u : User) (now : Timestamp)
| UseCredits (u : User) (amount : Decimal) (description : string)
    (content_object : ContentObject) (now : Timestamp).

Definition step {E} (c : Call) (st : State E) : State E :=
  match c with
  | Summary u => exec (credit_summary u) st
  | Purchase u now => exec (purchase_credit u now) st
  | UseCredits u amount description content_object now =>
      exec (use_credits u amount description content_object now) st
  end.

Definition run {E} (cs : list Call) (st : State E) : State E :=
  foldl (λ s c, step c s) st cs.

End CreditSystemTraces.

(** ** helpers3.py: the post pages *)

Module PostPages.
Import PostBoost.

Inductive Method : Type :=
| GET
| POST.

(** The context of [post_list]: the user's posts with their primary keys, and
    the balance. *)
Record PostListContext : Type := {
  listed_posts : list (nat * Post);
  current_balance : Decimal
}.

(** What the two views answer.  [ServerError] is the status 500 Django gives
    for an [IntegrityError] that escapes the view. *)
Inductive Page : Type :=
| Plain (response : Response)
| RenderPostList (context : PostListContext)
| RenderCreatePost
| ServerError.

(** [Post.objects.filter(user=u)], each row with its [id]. *)
Definition posts_of (u : User) (st : State) : list (nat * Post) :=
  filter (λ r, post_user r.2 = u) (map_to_list (posts st)).

Definition post_list (u : User) : Txn State Page :=
  posts ← gets (λ st, order_by_date_desc (λ r, created_at r.2) (posts_of u st));
  '(balance, _) ← get_or_create u;
  mret (RenderPostList {| listed_posts := posts; current_balance := balance |}).

(** [Post.objects.create(user=u, content=content)].  [post_id] is the key the
    database hands out for the new row; a row without content, or under a key
    already in use, is refused by the table's constraints. *)
Definition create_post (u : User) (method : Method) (content : option string)
    (post_id : nat) (now : Timestamp) : Txn State Page :=
  match method with
  | POST =>
      λ st,
        match content, posts st !! post_id with
        | Some text, None =>
            (inr (Plain (Redirect "credit_tracker:post_list" success)),
             {| purchases := purchases st; usages := usages st;
                balances := balances st;
                posts := <[post_id := {| post_user := u; content := text;
                                         is_boosted := false;
                                         created_at := now |}]> (posts st) |})
        | _, _ => (inr ServerError, st)
        end
  | GET => mret RenderCreatePost
  end.

(** templates/credit_tracker/post_list.html: one block per post, which shows
    the text and the date and then either the word "Boosted" or the form that
    posts to [boost_post] for that post. *)
Inductive PostBlock : Type :=
| BoostedBlock (text : string) (created : Timestamp)
| BoostFormBlock (text : string) (created : Timestamp) (action : nat).

Definition post_block (r : nat * Post) : PostBlock :=
  if is_boosted r.2 then BoostedBlock (content r.2) (created_at r.2)
  else BoostFormBlock (content r.2) (created_at r.2) r.1.

Record PostListHtml : Type := {
  shown_balance : Decimal;
  blocks : list PostBlock
}.

Definition post_list_html (context : PostListContext) : PostListHtml :=
  {| shown_balance := current_balance context;
     blocks := post_block <$> listed_posts context |}.

(** The requests the URL configuration routes to the views of helpers3.py. *)
Inductive Call : Type :=
| Summary (u : User)
| Purchase (u : User) (now : Timestamp)
| Boost (u : User) (post_id : nat) (now : Timestamp)
| PostList (u : User)
| CreatePost (u : User) (method : Method) (content : option string)
    (post_id : nat) (now : Timestamp).

Definition step (c : Call) (st : State) : State :=
  match c with
  | Summary u => exec (credit_summary u) st
  | Purchase u now => exec (purchase_credit u now) st
  | Boost u post_id now => exec (boost_post u post_id now) st
  | PostList u => exec (post_list u) st
  | CreatePost u method content post_id now =>
      exec (create_post u method content post_id now) st
  end.

Definition run (cs : list Call) (st : State) : State :=
  foldl (λ s c, step c s) st cs.

(** The row [create_post] inserts. *)
Definition new_post (u : User) (text : string) (now : Timestamp) : Post :=
  {| post_user := u; content := text; is_boosted := false; created_at := now |}.

(** What a stored post keeps from one state to a later one: its owner, text
    and date, and its flag once it is set. *)
Definition kept (p p' : Post) : Prop :=
  post_user p' = post_user p ∧ content p' = content p
  ∧ created_at p' = created_at p
  ∧ (is_boosted p = true → is_boosted p' = true).

(** The context [post_list] builds for [u] on [st]. *)
Definition context_of (u : User) (st : State) : PostListContext :=
  {| listed_posts := order_by_date_desc (λ r, created_at r.2) (posts_of u st);
     current_balance := balance_of (balances st) u |}.

(** The page [u] is shown for the database [st]. *)
Definition page_of (u : User) (st : State) : PostListHtml :=
  post_list_html (context_of u st).

(** *** Sample data *)

Definition two_posts : State :=
  {| purchases := [{| purchase_user := 1%nat;
                      purchase_amount := CREDIT_PURCHASE_AMOUNT;
                      purchase_date := 1%nat |}];
     usages := [];
     balances := {[ 1%nat := 5000 ]};
     posts := {[ 7%nat := {| post_user := 1%nat; content := "first";
                             is_boosted := false; created_at := 3%nat |};
                 8%nat := {| post_user := 1%nat; content := "second";
                             is_boosted := false; created_at := 4%nat |} ]} |}.

Definition short_of_credit : State :=
  {| purchases := []; usages := []; balances := {[ 1%nat := 99 ]};
     posts := posts two_posts |}.

End PostPages.

(** ** helpers.py with the amounts as [Decimal(...)] returns them

    [Tracker] above has the two views that take an amount on amounts that are
    a whole number of hundredths and fit the column.  Here the amount is any
    value of [Decimal(...)]: the views compare and compute with it exactly as
    Python does and the rows store what the column makes of the results.  The
    models, the tables and the ORM calls are those of [Tracker]. *)

Module TrackerDecimal.
Import Tracker.

Record Request : Type := {
  user : User;
  method : Method;
  post_amount : option PyDecimal
}.

Definition credit_summary (request : Request) : Txn State Response :=
  purchases ← gets (purchases_of (user request));
  usages ← gets (usages_of (user request));
  '(balance, created) ← get_or_create (user request);
  mret (RenderSummary {|
    total_purchased := py_sum (purchase_amount <$> purchases);
    total_used := py_sum (usage_amount <$> usages);
    current_balance := balance;
    recent_purchases := take 5 (order_by_date_desc purchase_date purchases);
    recent_usages := take 5 (order_by_date_desc usage_date usages)
  |}).

Definition use_credit (request : Request) (amount : PyDecimal) (now : Timestamp)
  : Txn State Response :=
  atomic (
    '(balance, created) ← get_or_create (user request);
    enough ← lift (py_ge (from_column balance) amount);
    if enough : bool then
      remaining ← lift (py_sub (from_column balance) amount);
      stored ← lift (to_column remaining);
      save_balance (user request) stored;;
      logged ← lift (to_column amount);
      create_usage {| usage_user := user request; usage_amount := logged;
                      usage_date := now; usage_description := "Credit usage" |};;
      mret (Redirect "credit_tracker:summary" success)
    else
      mret (Redirect "credit_tracker:purchase" warning)).

Definition purchase_credit (request : Request) (now : Timestamp)
  : Txn State Response :=
  atomic (
    match method request with
    | POST =>
        let amount := default (Finite 0 0) (post_amount request) in
        logged ← lift (to_column amount);
        create_purchase {| purchase_user := user request;
                           purchase_amount := logged; purchase_date := now |};;
        '(balance, created) ← get_or_create (user request);
        raised ← lift (py_add (from_column balance) amount);
        stored ← lift (to_column raised);
        save_balance (user request) stored;;
        mret (Redirect "credit_tracker:summary" success)
    | GET => mret RenderPurchaseForm
    end).

Inductive Call : Type :=
| Summary (request : Request)
| Use (request : Request) (amount : PyDecimal) (now : Timestamp)
| Purchase (request : Request) (now : Timestamp).

Definition handle (c : Call) : Txn State Response :=
  match c with
  | Summary request => credit_summary request
  | Use request amount now => use_credit request amount now
  | Purchase request now => purchase_credit request now
  end.

Definition run (cs : list Call) (st : State) : State :=
  foldl (λ s c, exec (handle c) s) st cs.

(** An amount written with at most two decimal places (a value that is not
    finite has no places at all). *)
Definition two_places (x : PyDecimal) : Prop :=
  match x with
  | Finite _ e => - DECIMAL_PLACES ≤ e
  | Infinite _ | NaN => True
  end.

(** The amount a call brings with it. *)
Definition amount_of (c : Call) : PyDecimal :=
  match c with
  | Summary _ => Finite 0 0
  | Use _ amount _ => amount
  | Purchase request _ => default (Finite 0 0) (post_amount request)
  end.

(** The same request for the views of [Tracker], with the posted amount
    [a] in hundredths. *)
Definition in_hundredths (request : Request) (a : Decimal) : Tracker.Request :=
  {| Tracker.user := user request; Tracker.method := method request;
     Tracker.post_amount := Some a |}.

(** *** Sample data *)

Definition bob (amount : PyDecimal) : Request :=
  {| user := 1%nat; method := POST; post_amount := Some amount |}.

(** A balance of [1.01] from one purchase of [1.01]. *)
Definition one_and_a_cent : State :=
  {| purchases := [{| purchase_user := 1%nat; purchase_amount := 101;
                      purchase_date := 1%nat |}];
     usages := [];
     balances := {[ 1%nat := 101 ]} |}.

End TrackerDecimal.

(** ** helpers1.py with the instance as Python holds it

    [CreditSystem.use_credits] above is given a content object that has been
    saved.  A model instance that has not been saved has no primary key, and
    then the usage row cannot be written: [object_id] is a column without
    [null=True].  The only call in the source, in [create_blog_post], passes
    such an instance. *)

Module CreditSystemObjects.
Import CreditSystem.

Record ModelInstance : Type := {
  instance_model : string;
  instance_pk : option nat
}.

Definition saved (c : ContentObject) : ModelInstance :=
  {| instance_model := model c; instance_pk := Some (pk c) |}.

(** [BlogPost(user=..., title=..., content=...)] before [save()]. *)
Definition unsaved (name : string) : ModelInstance :=
  {| instance_model := name; instance_pk := None |}.

Section views.
Context {E : Type}.

(** [CreditUsage.objects.create(..., content_object=content_object)]. *)
Definition create_usage_for (u : User) (amount : Decimal) (description : string)
    (content_object : ModelInstance) (now : Timestamp) : Txn (State E) unit :=
  match instance_pk content_object with
  | Some id =>
      create_usage {| usage_user := u; usage_amount := amount;
                      usage_date := now; usage_description := description;
                      content_type := instance_model content_object;
                      object_id := id |}
  | None => raise IntegrityError
  end.

Definition use_credits (u : User) (amount : Decimal) (description : string)
    (content_object : ModelInstance) (now : Timestamp) : Txn (State E) bool :=
  atomic (
    enough ← check_credit_balance u amount;
    if enough : bool then
      balance ← get u;
      save_balance u (balance - amount);;
      create_usage_for u amount description content_object now;;
      mret true
    else mret false).
End views.

End CreditSystemObjects.

(** * Properties *)

(** ** Sums and orderings of query sets *)



Lemma total_app (xs ys : list Decimal) : total (xs ++ ys) = total xs + total ys.
Proof.
  induction xs as [|x xs IH]; simpl; [reflexivity|].
  unfold total in *. simpl. rewrite IH. lia.
Qed.


(** Appending one row to a log adds its amount to the sum over the rows that
    satisfy [P] exactly when the row satisfies [P]. *)
Lemma total_filter_snoc {A} (P : A → Prop) `{!∀ x, Decision (P x)}
    (amount : A → Decimal) (rows : list A) (r : A) :
  total (amount <$> filter P (rows ++ [r])) =
  total (amount <$> filter P rows) + (if decide (P r) then amount r else 0).
Proof.
  rewrite filter_app, fmap_app, total_app, filter_cons, filter_nil.
  destruct (decide (P r)); unfold total; simpl; lia.
Qed.

Section recent.
Context {A : Type} (date : A → Timestamp).

#[local] Instance newer_first_total : Total (newer_first date).
Proof. intros r1 r2. unfold newer_first. lia. Qed.

#[local] Instance newer_first_trans : Transitive (newer_first date).
Proof. intros r1 r2 r3. unfold newer_first. lia. Qed.

Lemma order_by_date_desc_sorted (rows : list A) :
  StronglySorted (newer_first date) (order_by_date_desc date rows).
Proof. apply StronglySorted_merge_sort; apply _. Qed.

Lemma order_by_date_desc_perm (rows : list A) :
  order_by_date_desc date rows ≡ₚ rows.
Proof. apply merge_sort_Permutation. Qed.

End recent.

(** ** The balance table *)

Lemma get_or_create_row_balance (u : User) (tbl : gmap User Decimal) :
  (get_or_create_row u tbl).1.1 = balance_of tbl u.
Proof. unfold get_or_create_row, balance_of. destruct (tbl !! u); reflexivity. Qed.

Lemma get_or_create_row_lookup (u : User) (tbl : gmap User Decimal) :
  (get_or_create_row u tbl).2 !! u = Some (balance_of tbl u).
Proof.
  unfold get_or_create_row, balance_of.
  destruct (tbl !! u) eqn:Hu; simpl; [exact Hu|apply lookup_insert_eq].
Qed.

Lemma get_or_create_row_balance_of (u v : User) (tbl : gmap User Decimal) :
  balance_of (get_or_create_row u tbl).2 v = balance_of tbl v.
Proof.
  unfold get_or_create_row, balance_of.
  destruct (tbl !! u) eqn:Hu; simpl; [reflexivity|].
  destruct (decide (u = v)) as [->|Hne].
  - rewrite lookup_insert_eq. simpl. rewrite Hu. reflexivity.
  - rewrite lookup_insert_ne by exact Hne. reflexivity.
Qed.

Lemma get_or_create_row_present (u : User) (tbl : gmap User Decimal) :
  is_Some (tbl !! u) → (get_or_create_row u tbl).2 = tbl.
Proof. intros [b Hb]. unfold get_or_create_row. rewrite Hb. reflexivity. Qed.

Lemma get_or_create_row_absent (u : User) (tbl : gmap User Decimal) :
  tbl !! u = None → (get_or_create_row u tbl).2 = <[u := 0]> tbl.
Proof. intros Hb. unfold get_or_create_row. rewrite Hb. reflexivity. Qed.

Lemma get_or_create_row_save (u : User) (b : Decimal) (tbl : gmap User Decimal) :
  <[u := b]> (get_or_create_row u tbl).2 = <[u := b]> tbl.
Proof.
  unfold get_or_create_row. destruct (tbl !! u); simpl; [reflexivity|].
  apply insert_insert_eq.
Qed.

(** Asking twice creates at most one row, and the second call reads what the
    first one read or made. *)
Lemma get_or_create_row_twice (u : User) (tbl : gmap User Decimal) :
  get_or_create_row u (get_or_create_row u tbl).2
  = (balance_of tbl u, false, (get_or_create_row u tbl).2).
Proof.
  unfold get_or_create_row at 1. rewrite get_or_create_row_lookup. reflexivity.
Qed.

Lemma balance_of_insert (u v : User) (b : Decimal) (tbl : gmap User Decimal) :
  balance_of (<[u := b]> tbl) v = if decide (u = v) then b else balance_of tbl v.
Proof.
  unfold balance_of. rewrite lookup_insert. destruct (decide (u = v)); reflexivity.
Qed.

Ltac txn_unfold :=
  unfold atomic, mbind, txn_mbind, txn_bind, mret, txn_mret, txn_ret,
    gets, modify, raise, exec, outcome in *.

(** ** helpers.py *)

Module TrackerProofs.
Import Tracker.

(** *** What each view returns and writes *)

Lemma use_credit_enough request amount now st :
  amount ≤ balance_of (balances st) (user request) →
  use_credit request amount now st =
    (inr (Redirect "credit_tracker:summary" success),
     {| purchases := purchases st;
        usages := usages st ++ [usage_row request amount now];
        balances := <[user request :=
                        balance_of (balances st) (user request) - amount]>
                      (balances st) |}).
Proof.
  intros Hle. unfold use_credit, get_or_create, save_balance, create_usage.
  txn_unfold.
  pose proof (get_or_create_row_balance (user request) (balances st)) as Hb.
  pose proof (get_or_create_row_save (user request)
                (balance_of (balances st) (user request) - amount)
                (balances st)) as Hs.
  destruct (get_or_create_row (user request) (balances st)) as [[b c] tbl].
  simpl in *. subst b.
  rewrite bool_decide_eq_true_2 by exact Hle. simpl.
  rewrite Hs. reflexivity.
Qed.

Lemma use_credit_short request amount now st :
  balance_of (balances st) (user request) < amount →
  use_credit request amount now st =
    (inr (Redirect "credit_tracker:purchase" warning),
     {| purchases := purchases st;
        usages := usages st;
        balances := (get_or_create_row (user request) (balances st)).2 |}).
Proof.
  intros Hlt. unfold use_credit, get_or_create. txn_unfold.
  pose proof (get_or_create_row_balance (user request) (balances st)) as Hb.
  destruct (get_or_create_row (user request) (balances st)) as [[b c] tbl].
  simpl in *. subst b.
  rewrite bool_decide_eq_false_2 by lia. reflexivity.
Qed.

Lemma purchase_credit_post request now st :
  method request = POST →
  purchase_credit request now st =
    (inr (Redirect "credit_tracker:summary" success),
     {| purchases := purchases st ++ [purchase_row request now];
        usages := usages st;
        balances := <[user request :=
                        balance_of (balances st) (user request)
                        + default 0 (post_amount request)]>
                      (balances st) |}).
Proof.
  intros Hm. unfold purchase_credit, get_or_create, save_balance, create_purchase.
  rewrite Hm. txn_unfold. simpl.
  pose proof (get_or_create_row_balance (user request) (balances st)) as Hb.
  pose proof (get_or_create_row_save (user request)
                (balance_of (balances st) (user request)
                 + default 0 (post_amount request))
                (balances st)) as Hs.
  destruct (get_or_create_row (user request) (balances st)) as [[b c] tbl].
  simpl in *. subst b. rewrite Hs. reflexivity.
Qed.

Lemma purchase_credit_get request now st :
  method request = GET →
  purchase_credit request now st = (inr RenderPurchaseForm, st).
Proof. intros Hm. unfold purchase_credit. rewrite Hm. reflexivity. Qed.

Lemma credit_summary_run request st :
  credit_summary request st =
    (inr (RenderSummary (summary_of request st)),
     {| purchases := purchases st;
        usages := usages st;
        balances := (get_or_create_row (user request) (balances st)).2 |}).
Proof.
  unfold credit_summary, get_or_create, summary_of. txn_unfold.
  pose proof (get_or_create_row_balance (user request) (balances st)) as Hb.
  destruct (get_or_create_row (user request) (balances st)) as [[b c] tbl].
  simpl in *. subst b. reflexivity.
Qed.

(** *** The cached balance and the logs *)







(** *** The numbered statements of the specification, on helpers.py *)



(** Scenario A: a first purchase of [50.00]. *)
Example first_purchase :
  outcome (purchase_credit (alice_posts 5000) 1%nat) empty
    = inr (Redirect "credit_tracker:summary" success)
  ∧ balances (exec (purchase_credit (alice_posts 5000) 1%nat) empty) !! 1%nat
    = Some 5000
  ∧ purchases (exec (purchase_credit (alice_posts 5000) 1%nat) empty)
    = [{| purchase_user := 1%nat; purchase_amount := 5000;
          purchase_date := 1%nat |}].
Proof. vm_compute. repeat split. Qed.

(** C2.  A use request made with a non-negative balance leaves the balance
    non-negative, and the decrement is committed (the success redirect is
    returned) only when the balance read was at least the amount. *)
Theorem use_credit_keeps_balance_nonnegative
    (request : Request) (amount : Decimal) (now : Timestamp) (st : State) :
  0 ≤ balance_of (balances st) (user request) →
  0 ≤ balance_of (balances (exec (use_credit request amount now) st)) (user request)
  ∧ (outcome (use_credit request amount now) st
       = inr (Redirect "credit_tracker:summary" success) →
     amount ≤ balance_of (balances st) (user request)
     ∧ balance_of (balances (exec (use_credit request amount now) st)) (user request)
       = balance_of (balances st) (user request) - amount).
Proof.
  intros Hb. unfold exec, outcome.
  destruct (Z_le_gt_dec amount (balance_of (balances st) (user request)))
    as [Hle|Hgt].
  - rewrite use_credit_enough by exact Hle. simpl.
    rewrite balance_of_insert, decide_True by reflexivity. lia.
  - rewrite use_credit_short by lia. simpl.
    rewrite get_or_create_row_balance_of. split; [exact Hb|discriminate].
Qed.

Lemma use_credit_keeps_balance_nonnegative_witness :
  0 ≤ balance_of (balances one_credit) 1%nat
  ∧ 0 ≤ balance_of (balances (exec (use_credit (alice_posts 0) 100 2%nat) one_credit))
          1%nat.
Proof.
  assert (0 ≤ balance_of (balances one_credit) 1%nat) as Hb
    by (vm_compute; discriminate).
  split; [exact Hb|].
  exact (proj1 (use_credit_keeps_balance_nonnegative
                  (alice_posts 0) 100 2%nat one_credit Hb)).
Defined.

(** The committed balance is non-negative whatever the balance was before. *)
Lemma use_credit_committed_nonnegative request amount now st :
  outcome (use_credit request amount now) st
    = inr (Redirect "credit_tracker:summary" success) →
  0 ≤ balance_of (balances (exec (use_credit request amount now) st)) (user request).
Proof.
  unfold exec, outcome.
  destruct (Z_le_gt_dec amount (balance_of (balances st) (user request)))
    as [Hle|Hgt].
  - rewrite use_credit_enough by exact Hle. simpl. intros _.
    rewrite balance_of_insert, decide_True by reflexivity. lia.
  - rewrite use_credit_short by lia. discriminate.
Qed.

(** A use request for more than the balance is turned away: the warning
    redirect to the purchase page is returned, no log row is written and no
    user's balance changes. *)
Lemma use_credit_insufficient request amount now st :
  balance_of (balances st) (user request) < amount →
  outcome (use_credit request amount now) st
    = inr (Redirect "credit_tracker:purchase" warning)
  ∧ usages (exec (use_credit request amount now) st) = usages st
  ∧ purchases (exec (use_credit request amount now) st) = purchases st
  ∧ ∀ v, balance_of (balances (exec (use_credit request amount now) st)) v
         = balance_of (balances st) v.
Proof.
  intros Hlt. unfold exec, outcome. rewrite use_credit_short by exact Hlt. simpl.
  repeat split. intros v. apply get_or_create_row_balance_of.
Qed.





(** Scenario D on the code: a posted amount of [-5.00] is taken as it is.  The
    row is written and the balance of [50.00] drops to [45.00]. *)
Example purchase_of_minus_five :
  let st := {| purchases := []; usages := []; balances := {[ 1%nat := 5000 ]} |} in
  outcome (purchase_credit (alice_posts (-500)) 7%nat) st
    = inr (Redirect "credit_tracker:summary" success)
  ∧ purchases (exec (purchase_credit (alice_posts (-500)) 7%nat) st)
    = [{| purchase_user := 1%nat; purchase_amount := -500; purchase_date := 7%nat |}]
  ∧ balance_of (balances (exec (purchase_credit (alice_posts (-500)) 7%nat) st)) 1%nat
    = 4500.
Proof. vm_compute. repeat split. Qed.

(** A use request for a negative amount passes the balance check and raises
    the balance. *)
Example use_of_minus_five :
  let st := {| purchases := []; usages := []; balances := {[ 1%nat := 0 ]} |} in
  outcome (use_credit (alice_posts 0) (-500) 7%nat) st
    = inr (Redirect "credit_tracker:summary" success)
  ∧ balance_of (balances (exec (use_credit (alice_posts 0) (-500) 7%nat) st)) 1%nat
    = 500.
Proof. vm_compute. repeat split. Qed.


(** The recent list on a concrete table: seven purchases inserted out of
    date order, the five newest shown newest first. *)
Example recent_purchases_of_seven :
  let row d a := {| purchase_user := 1%nat; purchase_amount := a;
                    purchase_date := d |} in
  let st := {| purchases := [row 3%nat 30; row 7%nat 70; row 1%nat 10;
                             row 5%nat 50; row 2%nat 20; row 6%nat 60;
                             row 4%nat 40];
               usages := []; balances := ∅ |} in
  outcome (credit_summary (alice_posts 0)) st
  = inr (RenderSummary
           {| total_purchased := 280; total_used := 0; current_balance := 0;
              recent_purchases := [row 7%nat 70; row 6%nat 60; row 5%nat 50;
                                   row 4%nat 40; row 3%nat 30];
              recent_usages := [] |}).
Proof. vm_compute. reflexivity. Qed.

(** C8, as the code has it.  The summary page writes to neither log and
    changes no stored balance; its one write is the balance row with amount
    [0] that it creates for a user who has none. *)
Theorem credit_summary_only_creates_balance_row (request : Request) (st : State) :
  purchases (exec (credit_summary request) st) = purchases st
  ∧ usages (exec (credit_summary request) st) = usages st
  ∧ (∀ u, balance_of (balances (exec (credit_summary request) st)) u
          = balance_of (balances st) u)
  ∧ balances (exec (credit_summary request) st)
    = match balances st !! user request with
      | Some _ => balances st
      | None => <[user request := 0]> (balances st)
      end.
Proof.
  unfold exec. rewrite credit_summary_run. simpl. repeat split.
  - intros u. apply get_or_create_row_balance_of.
  - unfold get_or_create_row. destruct (balances st !! user request); reflexivity.
Qed.

(** C8, as stated, on the empty database: after the summary page the balance
    table holds a row, so the stores are not as they were. *)
Lemma credit_summary_writes_balance_row :
  balances empty !! 1%nat = None
  ∧ balances (exec (credit_summary (alice_posts 0)) empty) !! 1%nat = Some 0
  ∧ balances (exec (credit_summary (alice_posts 0)) empty) ≠ balances empty.
Proof.
  split; [reflexivity|]. split; [reflexivity|].
  intros H. apply (f_equal (λ tbl : gmap nat Z, tbl !! 1%nat)) in H.
  vm_compute in H. discriminate H.
Qed.

(** *** Two use requests for one user *)

(** The three statements of a request, run with nothing in between, are the
    view. *)
Lemma use_credit_steps_run request amount now st :
  ∃ response,
    use_credit request amount now st
      = (inr response, (use_credit_steps 3 request amount now Start st).2)
    ∧ (use_credit_steps 3 request amount now Start st).1 = Finished response.
Proof.
  pose proof (get_or_create_row_balance (user request) (balances st)) as Hb.
  destruct (Z_le_gt_dec amount (balance_of (balances st) (user request)))
    as [Hle|Hgt].
  - rewrite use_credit_enough by exact Hle. eexists.
    pose proof (get_or_create_row_save (user request)
                  (balance_of (balances st) (user request) - amount)
                  (balances st)) as Hs.
    unfold use_credit_steps, use_credit_step, save_balance, create_usage.
    txn_unfold.
    destruct (get_or_create_row (user request) (balances st)) as [[b c] tbl].
    simpl in *. subst b.
    rewrite bool_decide_eq_true_2 by exact Hle. simpl.
    rewrite Hs. split; reflexivity.
  - rewrite use_credit_short by lia. eexists.
    unfold use_credit_steps, use_credit_step.
    destruct (get_or_create_row (user request) (balances st)) as [[b c] tbl].
    simpl in *. subst b.
    rewrite bool_decide_eq_false_2 by lia. simpl. split; reflexivity.
Qed.

(** One request after the other: when the two amounts together exceed the
    balance, the two requests do not both succeed. *)
Lemma use_credit_twice_not_both request amount_1 amount_2 now_1 now_2 st :
  balance_of (balances st) (user request) < amount_1 + amount_2 →
  outcome (use_credit request amount_1 now_1) st
    = inr (Redirect "credit_tracker:summary" success) →
  outcome (use_credit request amount_2 now_2)
          (exec (use_credit request amount_1 now_1) st)
    = inr (Redirect "credit_tracker:purchase" warning).
Proof.
  intros Hsum. unfold exec, outcome.
  destruct (Z_le_gt_dec amount_1 (balance_of (balances st) (user request)))
    as [Hle|Hgt].
  - rewrite use_credit_enough by exact Hle. intros _.
    rewrite use_credit_short; [reflexivity|]. simpl.
    rewrite balance_of_insert, decide_True by reflexivity. lia.
  - rewrite use_credit_short by lia. discriminate.
Qed.

Section two_requests.
Context (request_1 request_2 : Request) (amount_1 amount_2 : Decimal)
  (now_1 now_2 : Timestamp).

Local Abbreviation step := (race_step request_1 request_2 amount_1 amount_2 now_1 now_2).

Lemma race_steps_first (n : nat) (x : Race) :
  foldl step x (replicate n first) =
    {| progress_1 :=
         (use_credit_steps n request_1 amount_1 now_1 (progress_1 x) (store x)).1;
       progress_2 := progress_2 x;
       store :=
         (use_credit_steps n request_1 amount_1 now_1 (progress_1 x) (store x)).2 |}.
Proof.
  revert x. induction n as [|n IH]; intros x; simpl.
  - destruct x; reflexivity.
  - rewrite IH. unfold race_step.
    destruct (use_credit_step request_1 amount_1 now_1 (progress_1 x) (store x))
      as [p st]. reflexivity.
Qed.

Lemma race_steps_second (n : nat) (x : Race) :
  foldl step x (replicate n second) =
    {| progress_1 := progress_1 x;
       progress_2 :=
         (use_credit_steps n request_2 amount_2 now_2 (progress_2 x) (store x)).1;
       store :=
         (use_credit_steps n request_2 amount_2 now_2 (progress_2 x) (store x)).2 |}.
Proof.
  revert x. induction n as [|n IH]; intros x; simpl.
  - destruct x; reflexivity.
  - rewrite IH. unfold race_step.
    destruct (use_credit_step request_2 amount_2 now_2 (progress_2 x) (store x))
      as [p st]. reflexivity.
Qed.

(** A schedule that lets the first request finish before the second starts
    is the first view followed by the second. *)
Lemma race_serial (st : State) :
  let x := race request_1 request_2 amount_1 amount_2 now_1 now_2
             (replicate 3 first ++ replicate 3 second) st in
  ∃ response_1 response_2,
    progress_1 x = Finished response_1
    ∧ progress_2 x = Finished response_2
    ∧ outcome (use_credit request_1 amount_1 now_1) st = inr response_1
    ∧ outcome (use_credit request_2 amount_2 now_2)
              (exec (use_credit request_1 amount_1 now_1) st) = inr response_2
    ∧ store x = exec (use_credit request_2 amount_2 now_2)
                     (exec (use_credit request_1 amount_1 now_1) st).
Proof.
  destruct (use_credit_steps_run request_1 amount_1 now_1 st)
    as (response_1 & Hrun_1 & Hfin_1).
  destruct (use_credit_steps_run request_2 amount_2 now_2
              (exec (use_credit request_1 amount_1 now_1) st))
    as (response_2 & Hrun_2 & Hfin_2).
  exists response_1, response_2. unfold race.
  rewrite foldl_app, race_steps_first, race_steps_second.
  cbn [progress_1 progress_2 store].
  unfold outcome, exec in *. rewrite Hrun_2. rewrite Hrun_1 in *.
  cbn [fst snd] in *. rewrite Hfin_1, Hfin_2. repeat split.
Qed.
End two_requests.

(** The schedule that puts the second request's read between the first
    request's read and write: when each amount alone is covered by the balance
    [C], both requests succeed, both usage rows are written, and the balance
    left is the one the second request computed, [C - amount_2]. *)
Lemma race_read_before_write_both request amount_1 amount_2 now_1 now_2 st :
  amount_1 ≤ balance_of (balances st) (user request) →
  amount_2 ≤ balance_of (balances st) (user request) →
  let x := race request request amount_1 amount_2 now_1 now_2
             [first; second; first; first; second; second] st in
  progress_1 x = Finished (Redirect "credit_tracker:summary" success)
  ∧ progress_2 x = Finished (Redirect "credit_tracker:summary" success)
  ∧ usages (store x) = usages st ++ [usage_row request amount_1 now_1;
                                      usage_row request amount_2 now_2]
  ∧ purchases (store x) = purchases st
  ∧ balance_of (balances (store x)) (user request)
    = balance_of (balances st) (user request) - amount_2.
Proof.
  intros H1 H2. unfold race. cbn [foldl race_step].
  cbn [progress_1 progress_2 store use_credit_step].
  pose proof (get_or_create_row_balance (user request) (balances st)) as Hb.
  pose proof (get_or_create_row_twice (user request) (balances st)) as Ht.
  destruct (get_or_create_row (user request) (balances st)) as [[b c] tbl].
  simpl in Hb, Ht. subst b.
  rewrite bool_decide_eq_true_2 by exact H1.
  cbn [progress_1 progress_2 store use_credit_step balances].
  rewrite Ht. rewrite bool_decide_eq_true_2 by exact H2.
  unfold save_balance, create_usage. txn_unfold. simpl.
  repeat split.
  - rewrite <- app_assoc. reflexivity.
  - rewrite balance_of_insert, decide_True by reflexivity. reflexivity.
Qed.

(** With [1.00] on the account, two requests for [1.00] run one after the
    other: the first succeeds, the second is turned away, the balance ends at
    [0.00] with one usage row. *)
Example race_one_after_the_other :
  let x := race (alice_posts 0) (alice_posts 0) 100 100 2%nat 3%nat
             [first; first; first; second; second; second] one_credit in
  progress_1 x = Finished (Redirect "credit_tracker:summary" success)
  ∧ progress_2 x = Finished (Redirect "credit_tracker:purchase" warning)
  ∧ balances (store x) !! 1%nat = Some 0
  ∧ usages (store x) = [usage_row (alice_posts 0) 100 2%nat].
Proof. vm_compute. repeat split. Qed.

(** The same two requests with the second one's read placed between the
    first one's read and write: both pass the check against the same balance,
    both succeed, and the balance of [0.00] no longer matches the logs, which
    hold one purchase of [1.00] and two usages of [1.00]. *)
Example race_read_before_write :
  let x := race (alice_posts 0) (alice_posts 0) 100 100 2%nat 3%nat
             [first; second; first; first; second; second] one_credit in
  progress_1 x = Finished (Redirect "credit_tracker:summary" success)
  ∧ progress_2 x = Finished (Redirect "credit_tracker:summary" success)
  ∧ balances (store x) !! 1%nat = Some 0
  ∧ usages (store x) = [usage_row (alice_posts 0) 100 2%nat;
                        usage_row (alice_posts 0) 100 3%nat]
  ∧ total (purchase_amount <$> purchases_of 1%nat (store x))
    - total (usage_amount <$> usages_of 1%nat (store x)) = -100.
Proof. vm_compute. repeat split. Qed.

End TrackerProofs.

(** ** helpers1.py *)

Module CreditSystemProofs.
Import CreditSystem.

Section facts.
Context {E : Type}.
Implicit Types (st : State E) (u v : User) (amount : Decimal)
  (description : string) (content_object : ContentObject) (now : Timestamp).

Lemma use_credits_enough u amount description content_object now st :
  amount ≤ balance_of (balances st) u →
  use_credits u amount description content_object now st =
    (inr true,
     {| purchases := purchases st;
        usages := usages st
                    ++ [usage_row u amount description content_object now];
        balances := <[u := balance_of (balances st) u - amount]> (balances st);
        entities := entities st |}).
Proof.
  intros Hle.
  unfold use_credits, check_credit_balance, get_or_create, get, save_balance,
    create_usage.
  txn_unfold.
  pose proof (get_or_create_row_balance u (balances st)) as Hb.
  pose proof (get_or_create_row_lookup u (balances st)) as Hl.
  pose proof (get_or_create_row_save u (balance_of (balances st) u - amount)
                (balances st)) as Hs.
  destruct (get_or_create_row u (balances st)) as [[b c] tbl].
  simpl in *. subst b.
  rewrite bool_decide_eq_true_2 by exact Hle. simpl.
  rewrite Hl. simpl. rewrite Hs. reflexivity.
Qed.

Lemma use_credits_short u amount description content_object now st :
  balance_of (balances st) u < amount →
  use_credits u amount description content_object now st =
    (inr false,
     {| purchases := purchases st;
        usages := usages st;
        balances := (get_or_create_row u (balances st)).2;
        entities := entities st |}).
Proof.
  intros Hlt. unfold use_credits, check_credit_balance, get_or_create.
  txn_unfold.
  pose proof (get_or_create_row_balance u (balances st)) as Hb.
  destruct (get_or_create_row u (balances st)) as [[b c] tbl].
  simpl in *. subst b.
  rewrite bool_decide_eq_false_2 by lia. reflexivity.
Qed.

Lemma system_purchase_credit_run u now st :
  purchase_credit u now st =
    (inr (Redirect "credit_system:summary" success),
     {| purchases := purchases st
                       ++ [{| purchase_user := u;
                              purchase_amount := CREDIT_PURCHASE_AMOUNT;
                              purchase_date := now |}];
        usages := usages st;
        balances := <[u := balance_of (balances st) u + CREDIT_PURCHASE_AMOUNT]>
                      (balances st);
        entities := entities st |}).
Proof.
  unfold purchase_credit, get_or_create, save_balance, create_purchase.
  txn_unfold.
  pose proof (get_or_create_row_balance u (balances st)) as Hb.
  pose proof (get_or_create_row_save u
                (balance_of (balances st) u + CREDIT_PURCHASE_AMOUNT)
                (balances st)) as Hs.
  destruct (get_or_create_row u (balances st)) as [[b c] tbl].
  simpl in *. subst b. rewrite Hs. reflexivity.
Qed.

(** [use_credits] never raises: the row it [get]s was just got or created. *)
Lemma use_credits_returns u amount description content_object now st :
  ∃ ok, outcome (use_credits u amount description content_object now) st = inr ok.
Proof.
  unfold outcome. destruct (Z_le_gt_dec amount (balance_of (balances st) u)).
  - rewrite use_credits_enough by assumption. eauto.
  - rewrite use_credits_short by lia. eauto.
Qed.

Lemma consistent_use_credits u amount description content_object now st :
  consistent st →
  consistent (exec (use_credits u amount description content_object now) st).
Proof.
  intros Hc. unfold exec.
  destruct (Z_le_gt_dec amount (balance_of (balances st) u)) as [Hle|Hgt].
  - rewrite use_credits_enough by exact Hle. intros v. specialize (Hc v).
    unfold purchases_of, usages_of in *. simpl.
    rewrite balance_of_insert, total_filter_snoc. simpl.
    destruct (decide (u = v)) as [->|Hne]; lia.
  - rewrite use_credits_short by lia. intros v. simpl.
    rewrite get_or_create_row_balance_of. apply (Hc v).
Qed.

Lemma system_consistent_purchase_credit u now st :
  consistent st → consistent (exec (purchase_credit u now) st).
Proof.
  intros Hc. unfold exec. rewrite system_purchase_credit_run. intros v.
  specialize (Hc v). unfold purchases_of, usages_of in *. simpl.
  rewrite balance_of_insert, total_filter_snoc. simpl.
  destruct (decide (u = v)) as [->|Hne]; lia.
Qed.

Lemma use_credits_keeps_balance_nonnegative
    u amount description content_object now st :
  0 ≤ balance_of (balances st) u →
  0 ≤ balance_of
        (balances (exec (use_credits u amount description content_object now) st))
        u.
Proof.
  intros Hb. unfold exec.
  destruct (Z_le_gt_dec amount (balance_of (balances st) u)) as [Hle|Hgt].
  - rewrite use_credits_enough by exact Hle. simpl.
    rewrite balance_of_insert, decide_True by reflexivity. lia.
  - rewrite use_credits_short by lia. simpl.
    rewrite get_or_create_row_balance_of. exact Hb.
Qed.

Lemma use_credits_entities u amount description content_object now st :
  entities (exec (use_credits u amount description content_object now) st)
    = entities st.
Proof.
  unfold exec.
  destruct (Z_le_gt_dec amount (balance_of (balances st) u)) as [Hle|Hgt].
  - rewrite use_credits_enough by exact Hle. reflexivity.
  - rewrite use_credits_short by lia. reflexivity.
Qed.

(** What a refused call does to the balance table: it leaves behind the row
    with amount [0] that [get_or_create] makes for a user who had none. *)
Lemma use_credits_short_balance_table u amount description content_object now st :
  balance_of (balances st) u < amount →
  balances (exec (use_credits u amount description content_object now) st)
  = match balances st !! u with
    | Some _ => balances st
    | None => <[u := 0]> (balances st)
    end.
Proof.
  intros Hlt. unfold exec. rewrite use_credits_short by exact Hlt. simpl.
  unfold get_or_create_row. destruct (balances st !! u); reflexivity.
Qed.

(** *** The numbered statements of the specification, on helpers1.py *)

(** C4.  A call of [use_credits] for more than the user's balance returns
    [False] and changes nothing: no usage row and no purchase row is
    written, and every user's balance is what it was. *)
Theorem use_credits_insufficient u amount description content_object now st :
  balance_of (balances st) u < amount →
  outcome (use_credits u amount description content_object now) st = inr false
  ∧ usages (exec (use_credits u amount description content_object now) st)
    = usages st
  ∧ purchases (exec (use_credits u amount description content_object now) st)
    = purchases st
  ∧ ∀ v, balance_of
           (balances (exec (use_credits u amount description content_object now) st))
           v
         = balance_of (balances st) v.
Proof.
  intros Hlt. unfold exec, outcome. rewrite use_credits_short by exact Hlt.
  simpl. repeat split. intros v. apply get_or_create_row_balance_of.
Qed.

(** C5.  A call of [use_credits] that the user's balance covers returns
    [True], lowers that balance by exactly the amount, leaves the other
    balances alone and appends exactly one usage row, which carries the
    user, the amount, the description and the reference given. *)
Theorem use_credits_sufficient u amount description content_object now st :
  amount ≤ balance_of (balances st) u →
  outcome (use_credits u amount description content_object now) st = inr true
  ∧ balance_of
      (balances (exec (use_credits u amount description content_object now) st)) u
    = balance_of (balances st) u - amount
  ∧ (∀ v, v ≠ u →
          balance_of
            (balances (exec (use_credits u amount description content_object now) st))
            v
          = balance_of (balances st) v)
  ∧ usages (exec (use_credits u amount description content_object now) st)
    = usages st ++ [{| usage_user := u; usage_amount := amount;
                       usage_date := now; usage_description := description;
                       content_type := model content_object;
                       object_id := pk content_object |}]
  ∧ purchases (exec (use_credits u amount description content_object now) st)
    = purchases st.
Proof.
  intros Hle. unfold exec, outcome. rewrite use_credits_enough by exact Hle.
  simpl. repeat split.
  - rewrite balance_of_insert, decide_True by reflexivity. reflexivity.
  - intros v Hv. rewrite balance_of_insert, decide_False by congruence.
    reflexivity.
Qed.

End facts.


(** A spend of [0.00], which is what [create_blog_post] asks for when the
    content has no words, is accepted and logged like any other. *)
Example use_credits_of_zero :
  outcome (use_credits 1%nat 0 "Create blog post: " post_7 5%nat) no_rows
    = inr true
  ∧ usages (exec (use_credits 1%nat 0 "Create blog post: " post_7 5%nat) no_rows)
    = [usage_row 1%nat 0 "Create blog post: " post_7 5%nat]
  ∧ balances (exec (use_credits 1%nat 0 "Create blog post: " post_7 5%nat) no_rows)
      !! 1%nat = Some 0.
Proof. vm_compute. repeat split. Qed.

(** Scenario C: with no credit, a spend of [1.00] described as "x". *)
Lemma use_credits_insufficient_witness :
  balance_of (balances no_rows) 1%nat < 100
  ∧ outcome (use_credits 1%nat 100 "x" post_7 5%nat) no_rows = inr false
  ∧ usages (exec (use_credits 1%nat 100 "x" post_7 5%nat) no_rows) = []
  ∧ balance_of (balances (exec (use_credits 1%nat 100 "x" post_7 5%nat) no_rows))
      1%nat = 0.
Proof.
  assert (balance_of (balances no_rows) 1%nat < 100) as Hlt by reflexivity.
  pose proof (use_credits_insufficient 1%nat 100 "x" post_7 5%nat no_rows Hlt)
    as (Ho & Hus & _ & Hbal).
  split; [exact Hlt|]. split; [exact Ho|]. split; [exact Hus|exact (Hbal 1%nat)].
Defined.

(** Scenario B: with [50.00], a spend of [1.00] for boosting post 7. *)
Lemma use_credits_sufficient_witness :
  100 ≤ balance_of (balances fifty_credits) 1%nat
  ∧ outcome (use_credits 1%nat 100 "Boost post 7" post_7 5%nat) fifty_credits
    = inr true
  ∧ balance_of
      (balances (exec (use_credits 1%nat 100 "Boost post 7" post_7 5%nat)
                   fifty_credits)) 1%nat
    = 4900
  ∧ usages (exec (use_credits 1%nat 100 "Boost post 7" post_7 5%nat) fifty_credits)
    = [{| usage_user := 1%nat; usage_amount := 100; usage_date := 5%nat;
          usage_description := "Boost post 7"; content_type := "post";
          object_id := 7 |}].
Proof.
  assert (100 ≤ balance_of (balances fifty_credits) 1%nat) as Hle
    by (vm_compute; discriminate).
  pose proof (use_credits_sufficient 1%nat 100 "Boost post 7" post_7 5%nat
                fifty_credits Hle) as (Ho & Hbal & _ & Hus & _).
  split; [exact Hle|]. split; [exact Ho|]. split; [exact Hbal|exact Hus].
Defined.

End CreditSystemProofs.

(** ** helpers3.py *)

Module PostBoostProofs.
Import PostBoost.

Implicit Types (st : State) (u v : User) (post_id : nat) (now : Timestamp)
  (post : Post).

Lemma boost_post_missing u post_id now st :
  posts st !! post_id = None →
  boost_post u post_id now st = (inl Http404, st).
Proof.
  intros Hp. unfold boost_post, get_object_or_404. txn_unfold.
  rewrite Hp. reflexivity.
Qed.

Lemma boost_post_foreign u post_id now st post :
  posts st !! post_id = Some post → post_user post ≠ u →
  boost_post u post_id now st = (inl Http404, st).
Proof.
  intros Hp Hu. unfold boost_post, get_object_or_404. txn_unfold.
  rewrite Hp, decide_False by exact Hu. reflexivity.
Qed.

Lemma boost_post_enough u post_id now st post :
  posts st !! post_id = Some post → post_user post = u →
  BOOST_COST ≤ balance_of (balances st) u →
  boost_post u post_id now st =
    (inr (Redirect "credit_tracker:post_list" success),
     {| purchases := purchases st;
        usages := usages st ++ [boost_row u post_id now];
        balances := <[u := balance_of (balances st) u - BOOST_COST]> (balances st);
        posts := <[post_id := set_boosted post]> (posts st) |}).
Proof.
  intros Hp Hu Hle.
  unfold boost_post, get_object_or_404, get_or_create, save_balance, save_post,
    create_usage.
  txn_unfold. rewrite Hp, decide_True by exact Hu.
  pose proof (get_or_create_row_balance u (balances st)) as Hb.
  pose proof (get_or_create_row_save u (balance_of (balances st) u - BOOST_COST)
                (balances st)) as Hs.
  destruct (get_or_create_row u (balances st)) as [[b c] tbl].
  simpl in *. subst b.
  rewrite bool_decide_eq_true_2 by exact Hle. simpl.
  rewrite Hs. reflexivity.
Qed.

Lemma boost_post_short u post_id now st post :
  posts st !! post_id = Some post → post_user post = u →
  balance_of (balances st) u < BOOST_COST →
  boost_post u post_id now st =
    (inr (Redirect "credit_tracker:post_list" warning),
     {| purchases := purchases st;
        usages := usages st;
        balances := (get_or_create_row u (balances st)).2;
        posts := posts st |}).
Proof.
  intros Hp Hu Hlt. unfold boost_post, get_object_or_404, get_or_create.
  txn_unfold. rewrite Hp, decide_True by exact Hu.
  pose proof (get_or_create_row_balance u (balances st)) as Hb.
  destruct (get_or_create_row u (balances st)) as [[b c] tbl].
  simpl in *. subst b.
  rewrite bool_decide_eq_false_2 by lia. reflexivity.
Qed.

(** The four ways a boost request can go. *)
Lemma boost_post_cases u post_id now st :
  boost_post u post_id now st = (inl Http404, st)
  ∨ (∃ post, posts st !! post_id = Some post ∧ post_user post = u
             ∧ BOOST_COST ≤ balance_of (balances st) u)
  ∨ (∃ post, posts st !! post_id = Some post ∧ post_user post = u
             ∧ balance_of (balances st) u < BOOST_COST).
Proof.
  destruct (posts st !! post_id) as [post|] eqn:Hp.
  - destruct (decide (post_user post = u)) as [Hu|Hu].
    + destruct (Z_le_gt_dec BOOST_COST (balance_of (balances st) u)).
      * right. left. eauto.
      * right. right. exists post. repeat split; [assumption|lia].
    + left. eapply boost_post_foreign; eassumption.
  - left. apply boost_post_missing, Hp.
Qed.

Lemma boost_credit_summary_writes u st :
  purchases (exec (credit_summary u) st) = purchases st
  ∧ usages (exec (credit_summary u) st) = usages st
  ∧ posts (exec (credit_summary u) st) = posts st
  ∧ (∀ v, balance_of (balances (exec (credit_summary u) st)) v
          = balance_of (balances st) v)
  ∧ balances (exec (credit_summary u) st)
    = match balances st !! u with
      | Some _ => balances st
      | None => <[u := 0]> (balances st)
      end.
Proof.
  unfold exec, credit_summary, get_or_create. txn_unfold.
  pose proof (get_or_create_row_balance_of u) as Hb.
  unfold get_or_create_row in *.
  destruct (balances st !! u) eqn:Hu; simpl; repeat split.
  intros v. specialize (Hb v (balances st)). rewrite Hu in Hb. exact Hb.
Qed.

Lemma boost_purchase_credit_run u now st :
  purchase_credit u now st =
    (inr (Redirect "credit_tracker:summary" success),
     {| purchases := purchases st
                       ++ [{| purchase_user := u;
                              purchase_amount := CREDIT_PURCHASE_AMOUNT;
                              purchase_date := now |}];
        usages := usages st;
        balances := <[u := balance_of (balances st) u + CREDIT_PURCHASE_AMOUNT]>
                      (balances st);
        posts := posts st |}).
Proof.
  unfold purchase_credit, get_or_create, save_balance, create_purchase.
  txn_unfold.
  pose proof (get_or_create_row_balance u (balances st)) as Hb.
  pose proof (get_or_create_row_save u
                (balance_of (balances st) u + CREDIT_PURCHASE_AMOUNT)
                (balances st)) as Hs.
  destruct (get_or_create_row u (balances st)) as [[b c] tbl].
  simpl in *. subst b. rewrite Hs. reflexivity.
Qed.

Lemma boost_consistent_purchase_credit u now st :
  consistent st → consistent (exec (purchase_credit u now) st).
Proof.
  intros Hc. unfold exec. rewrite boost_purchase_credit_run. intros v.
  specialize (Hc v). unfold purchases_of, usages_of in *. simpl.
  rewrite balance_of_insert, total_filter_snoc. simpl.
  destruct (decide (u = v)) as [->|Hne]; lia.
Qed.

Lemma set_boosted_idem post : is_boosted post = true → set_boosted post = post.
Proof. destruct post as [pu c b t]. simpl. intros ->. reflexivity. Qed.

Lemma boost_post_keeps_balance_nonnegative u post_id now st :
  0 ≤ balance_of (balances st) u →
  0 ≤ balance_of (balances (exec (boost_post u post_id now) st)) u.
Proof.
  intros Hb. unfold exec.
  destruct (boost_post_cases u post_id now st)
    as [->|[(post & Hp & Hu & Hle)|(post & Hp & Hu & Hlt)]].
  - exact Hb.
  - rewrite (boost_post_enough _ _ _ _ _ Hp Hu Hle). simpl.
    rewrite balance_of_insert, decide_True by reflexivity. lia.
  - rewrite (boost_post_short _ _ _ _ _ Hp Hu Hlt). simpl.
    rewrite get_or_create_row_balance_of. exact Hb.
Qed.

Lemma consistent_boost_post u post_id now st :
  consistent st → consistent (exec (boost_post u post_id now) st).
Proof.
  intros Hc. unfold exec.
  destruct (boost_post_cases u post_id now st)
    as [->|[(post & Hp & Hu & Hle)|(post & Hp & Hu & Hlt)]].
  - exact Hc.
  - rewrite (boost_post_enough _ _ _ _ _ Hp Hu Hle). intros v.
    specialize (Hc v). unfold purchases_of, usages_of in *. simpl.
    rewrite balance_of_insert, total_filter_snoc. simpl.
    destruct (decide (u = v)) as [->|Hne]; unfold BOOST_COST in *; lia.
  - rewrite (boost_post_short _ _ _ _ _ Hp Hu Hlt). intros v. simpl.
    rewrite get_or_create_row_balance_of. apply (Hc v).
Qed.

(** The post a boost request names is the only one it can change, and only
    in its flag. *)
Lemma boost_post_touches_one_post u post_id now st :
  posts (exec (boost_post u post_id now) st) = posts st
  ∨ ∃ post, posts st !! post_id = Some post
            ∧ posts (exec (boost_post u post_id now) st)
              = <[post_id := set_boosted post]> (posts st).
Proof.
  unfold exec.
  destruct (boost_post_cases u post_id now st)
    as [->|[(post & Hp & Hu & Hle)|(post & Hp & Hu & Hlt)]].
  - left. reflexivity.
  - rewrite (boost_post_enough _ _ _ _ _ Hp Hu Hle). right. eauto.
  - rewrite (boost_post_short _ _ _ _ _ Hp Hu Hlt). left. reflexivity.
Qed.

Lemma boost_post_boosted u post_id now st post :
  posts st !! post_id = Some post → post_user post = u →
  is_boosted post = true →
  BOOST_COST ≤ balance_of (balances st) u →
  boost_post u post_id now st =
    (inr (Redirect "credit_tracker:post_list" success),
     {| purchases := purchases st;
        usages := usages st ++ [boost_row u post_id now];
        balances := <[u := balance_of (balances st) u - BOOST_COST]> (balances st);
        posts := posts st |}).
Proof.
  intros Hp Hu Hb Hle. rewrite (boost_post_enough _ _ _ _ _ Hp Hu Hle).
  rewrite (set_boosted_idem post Hb), (insert_id (posts st) post_id post Hp).
  reflexivity.
Qed.

(** Boosting the same post once per timestamp of [nows]. *)
Lemma boost_post_repeatedly u post_id (nows : list Timestamp) st post :
  posts st !! post_id = Some post → post_user post = u →
  is_boosted post = true →
  BOOST_COST * Z.of_nat (length nows) ≤ balance_of (balances st) u →
  let st' := foldl (λ s now, exec (boost_post u post_id now) s) st nows in
  balance_of (balances st') u
    = balance_of (balances st) u - BOOST_COST * Z.of_nat (length nows)
  ∧ usages st' = usages st ++ (boost_row u post_id <$> nows)
  ∧ posts st' = posts st.
Proof.
  revert st. induction nows as [|now nows IH]; intros st Hp Hu Hb Hle; simpl.
  - rewrite app_nil_r. repeat split. lia.
  - assert (BOOST_COST ≤ balance_of (balances st) u) as Hone
      by (unfold BOOST_COST in *; simpl length in Hle; lia).
    unfold exec at 2 4 6. rewrite (boost_post_boosted _ _ _ _ _ Hp Hu Hb Hone).
    simpl.
    match goal with
    | |- context [foldl _ ?s nows] => destruct (IH s) as (Hbal & Hus & Hps)
    end; simpl; try assumption.
    + rewrite balance_of_insert, decide_True by reflexivity.
      unfold BOOST_COST in *. simpl length in Hle. lia.
    + rewrite Hbal, Hus, Hps. simpl.
      rewrite balance_of_insert, decide_True by reflexivity.
      repeat split.
      * unfold BOOST_COST. simpl length. lia.
      * rewrite <- app_assoc. reflexivity.
Qed.

(** *** The numbered statements of the specification, on helpers3.py *)

(** C10.  Boosting does not look at the flag.  A boost request by the owner of
    an already boosted post, with a balance of at least [BOOST_COST], succeeds
    once more: the balance drops by [BOOST_COST], one more usage row is
    appended, and the post is stored as it was, still boosted. *)
Theorem boost_post_again u post_id now st post :
  posts st !! post_id = Some post → post_user post = u →
  is_boosted post = true →
  BOOST_COST ≤ balance_of (balances st) u →
  outcome (boost_post u post_id now) st
    = inr (Redirect "credit_tracker:post_list" success)
  ∧ balance_of (balances (exec (boost_post u post_id now) st)) u
    = balance_of (balances st) u - BOOST_COST
  ∧ usages (exec (boost_post u post_id now) st)
    = usages st ++ [{| usage_user := u; usage_amount := BOOST_COST;
                       usage_date := now;
                       usage_description :=
                         "Boost post (ID: " +:+ pretty post_id +:+ ")" |}]
  ∧ posts (exec (boost_post u post_id now) st) = posts st
  ∧ (is_boosted <$> posts (exec (boost_post u post_id now) st) !! post_id)
    = Some true.
Proof.
  intros Hp Hu Hb Hle. unfold exec, outcome.
  rewrite (boost_post_boosted _ _ _ _ _ Hp Hu Hb Hle). simpl.
  rewrite Hp. simpl. rewrite Hb. repeat split.
  rewrite balance_of_insert, decide_True by reflexivity. reflexivity.
Qed.

Lemma boost_post_again_witness :
  BOOST_COST ≤ balance_of (balances boosted_post) 1%nat
  ∧ balance_of (balances (exec (boost_post 1%nat 7%nat 3%nat) boosted_post)) 1%nat
    = 4800
  ∧ usages (exec (boost_post 1%nat 7%nat 3%nat) boosted_post)
    = [boost_row 1%nat 7%nat 2%nat; boost_row 1%nat 7%nat 3%nat].
Proof.
  assert (BOOST_COST ≤ balance_of (balances boosted_post) 1%nat) as Hle
    by (vm_compute; discriminate).
  pose proof (boost_post_again 1%nat 7%nat 3%nat boosted_post _
                eq_refl eq_refl eq_refl Hle) as (_ & Hbal & Hus & _).
  split; [exact Hle|]. split; [exact Hbal|exact Hus].
Defined.

End PostBoostProofs.

(** ** More facts about filtered logs *)

Lemma filter_none {A} (P : A → Prop) `{!∀ x, Decision (P x)} (l : list A) :
  Forall (λ x, ¬ P x) l → filter P l = [].
Proof.
  induction 1 as [|x l Hx _ IH]; [reflexivity|].
  rewrite filter_cons_False by exact Hx. exact IH.
Qed.

(** ** helpers.py: sequences of requests *)

Module TrackerTraceProofs.
Import Tracker TrackerTraces TrackerProofs.

(** What one request does to the three tables, whatever the view. *)
Lemma handle_tables (c : Call) (st : State) :
  (∃ ps, purchases (exec (handle c) st) = purchases st ++ ps
         ∧ Forall (λ r, purchase_user r = caller c) ps)
  ∧ (∃ us, usages (exec (handle c) st) = usages st ++ us
           ∧ Forall (λ r, usage_user r = caller c) us)
  ∧ ∀ v, v ≠ caller c →
         balances (exec (handle c) st) !! v = balances st !! v.
Proof.
  assert (∀ u v, v ≠ u →
            (get_or_create_row u (balances st)).2 !! v = balances st !! v)
    as Htouch.
  { intros u v Hv. unfold get_or_create_row.
    destruct (balances st !! u); simpl; [reflexivity|].
    apply lookup_insert_ne. congruence. }
  unfold exec. destruct c as [request|request amount now|request now]; simpl.
  - rewrite credit_summary_run. simpl. split; [|split].
    + exists []. rewrite app_nil_r. auto.
    + exists []. rewrite app_nil_r. auto.
    + apply Htouch.
  - destruct (Z_le_gt_dec amount (balance_of (balances st) (user request)))
      as [Hle|Hgt].
    + rewrite use_credit_enough by exact Hle. simpl. split; [|split].
      * exists []. rewrite app_nil_r. auto.
      * eexists. split; [reflexivity|]. repeat constructor.
      * intros v Hv. apply lookup_insert_ne. congruence.
    + rewrite use_credit_short by lia. simpl. split; [|split].
      * exists []. rewrite app_nil_r. auto.
      * exists []. rewrite app_nil_r. auto.
      * apply Htouch.
  - destruct (method request) eqn:Hm.
    + rewrite purchase_credit_get by exact Hm. split; [|split].
      * exists []. rewrite app_nil_r. auto.
      * exists []. rewrite app_nil_r. auto.
      * reflexivity.
    + rewrite purchase_credit_post by exact Hm. simpl. split; [|split].
      * eexists. split; [reflexivity|]. repeat constructor.
      * exists []. rewrite app_nil_r. auto.
      * intros v Hv. apply lookup_insert_ne. congruence.
Qed.

(** X1.  The two logs are append-only: whatever requests are served, the rows
    that were in the purchase log and in the usage log are still there, in
    the same order, at the front of the logs. *)
Theorem logs_only_grow (cs : list Call) (st : State) :
  purchases st `prefix_of` purchases (run cs st)
  ∧ usages st `prefix_of` usages (run cs st).
Proof.
  revert st. induction cs as [|c cs IH]; intros st; simpl.
  - split; reflexivity.
  - destruct (IH (exec (handle c) st)) as [Hp Hu].
    destruct (handle_tables c st) as ((ps & Hps & _) & (us & Hus & _) & _).
    split.
    + etransitivity; [|exact Hp]. rewrite Hps. apply prefix_app_r. reflexivity.
    + etransitivity; [|exact Hu]. rewrite Hus. apply prefix_app_r. reflexivity.
Qed.

(** X2.  Requests of other users leave a user's part of the ledger alone:
    the stored balance row (or its absence), the purchase rows and the usage
    rows of [v] are the same after any sequence of requests none of which is
    made by [v]. *)
Theorem other_users_requests_change_nothing (cs : list Call) (st : State) (v : User) :
  Forall (λ c, caller c ≠ v) cs →
  balances (run cs st) !! v = balances st !! v
  ∧ purchases_of v (run cs st) = purchases_of v st
  ∧ usages_of v (run cs st) = usages_of v st.
Proof.
  intros Hcs. revert st. induction Hcs as [|c cs Hc _ IH]; intros st; simpl.
  - repeat split.
  - destruct (IH (exec (handle c) st)) as (Hb & Hp & Hu).
    destruct (handle_tables c st) as ((ps & Hps & Hpu) & (us & Hus & Huu) & Hbal).
    rewrite Hb, Hp, Hu. split; [|split].
    + apply Hbal. congruence.
    + unfold purchases_of. rewrite Hps, filter_app.
      rewrite (filter_none _ ps); [apply app_nil_r|].
      eapply Forall_impl; [exact Hpu|]. simpl. congruence.
    + unfold usages_of. rewrite Hus, filter_app.
      rewrite (filter_none _ us); [apply app_nil_r|].
      eapply Forall_impl; [exact Huu|]. simpl. congruence.
Qed.

Lemma other_users_requests_change_nothing_witness :
  Forall (λ c, caller c ≠ 2%nat)
    [Purchase (alice_posts 5000) 10%nat; Use (alice_posts 0) 100 11%nat]
  ∧ balances (run [Purchase (alice_posts 5000) 10%nat;
                   Use (alice_posts 0) 100 11%nat] empty) !! 2%nat = None.
Proof.
  assert (Forall (λ c, caller c ≠ 2%nat)
            [Purchase (alice_posts 5000) 10%nat; Use (alice_posts 0) 100 11%nat])
    as Hcs by (repeat constructor; discriminate).
  split; [exact Hcs|].
  exact (proj1 (other_users_requests_change_nothing _ empty 2%nat Hcs)).
Defined.




(** X4.  The summary page writes at most once: a second request for it, right
    after the first, leaves the database as the first left it and renders the
    same page. *)
Theorem credit_summary_again (request : Request) (st : State) :
  credit_summary request (exec (credit_summary request) st)
  = (outcome (credit_summary request) st, exec (credit_summary request) st).
Proof.
  unfold exec, outcome. rewrite !credit_summary_run. simpl.
  pose proof (get_or_create_row_twice (user request) (balances st)) as Ht.
  pose proof (get_or_create_row_balance_of (user request) (user request)
                (balances st)) as Hb.
  unfold summary_of, purchases_of, usages_of. simpl.
  rewrite Ht, Hb. reflexivity.
Qed.



Lemma handle_nonnegative (c : Call) (st : State) :
  0 ≤ purchased c →
  (∀ u, 0 ≤ balance_of (balances st) u) →
  ∀ u, 0 ≤ balance_of (balances (exec (handle c) st)) u.
Proof.
  intros Hc Hst u. unfold exec.
  destruct c as [request|request amount now|request now]; simpl in *.
  - rewrite credit_summary_run. simpl.
    rewrite get_or_create_row_balance_of. apply Hst.
  - destruct (Z_le_gt_dec amount (balance_of (balances st) (user request)))
      as [Hle|Hgt].
    + rewrite use_credit_enough by exact Hle. simpl. rewrite balance_of_insert.
      destruct (decide (user request = u)); [lia|apply Hst].
    + rewrite use_credit_short by lia. simpl.
      rewrite get_or_create_row_balance_of. apply Hst.
  - destruct (method request) eqn:Hm.
    + rewrite purchase_credit_get by exact Hm. apply Hst.
    + rewrite purchase_credit_post by exact Hm. simpl. rewrite balance_of_insert.
      destruct (decide (user request = u)); [|apply Hst].
      specialize (Hst (user request)). lia.
Qed.

(** X6.  No balance goes below zero as long as no purchase request posts a
    negative amount: from a database whose balances are all zero or more,
    any sequence of summary, use and such purchase requests leads to one
    whose balances are all zero or more (a use request may carry any
    amount). *)
Theorem balances_stay_nonnegative (cs : list Call) (st : State) :
  Forall (λ c, 0 ≤ purchased c) cs →
  (∀ u, 0 ≤ balance_of (balances st) u) →
  ∀ u, 0 ≤ balance_of (balances (run cs st)) u.
Proof.
  intros Hcs. revert st. induction Hcs as [|c cs Hc _ IH]; intros st Hst; simpl.
  - exact Hst.
  - apply IH. apply handle_nonnegative; assumption.
Qed.

Lemma empty_nonnegative : ∀ u, 0 ≤ balance_of (balances empty) u.
Proof. intros u. unfold balance_of, empty. simpl. rewrite lookup_empty. reflexivity. Qed.

Lemma balances_stay_nonnegative_witness :
  Forall (λ c, 0 ≤ purchased c)
    [Purchase (alice_posts 5000) 10%nat; Use (alice_posts 0) (-100) 11%nat;
     Use (alice_posts 0) 9900 12%nat]
  ∧ 0 ≤ balance_of
          (balances (run [Purchase (alice_posts 5000) 10%nat;
                          Use (alice_posts 0) (-100) 11%nat;
                          Use (alice_posts 0) 9900 12%nat] empty)) 1%nat.
Proof.
  assert (Forall (λ c, 0 ≤ purchased c)
            [Purchase (alice_posts 5000) 10%nat; Use (alice_posts 0) (-100) 11%nat;
             Use (alice_posts 0) 9900 12%nat]) as Hcs
    by (repeat constructor; vm_compute; discriminate).
  split; [exact Hcs|].
  exact (balances_stay_nonnegative _ empty Hcs empty_nonnegative 1%nat).
Defined.

End TrackerTraceProofs.

(** ** helpers1.py: sequences of calls *)

Module CreditSystemTraceProofs.
Import CreditSystem CreditSystemTraces CreditSystemProofs.

Section traces.
Context {E : Type}.
Implicit Types (st : State E) (u v : User) (c : Call) (cs : list Call).

Lemma system_credit_summary_run u st :
  exec (credit_summary u) st =
    {| purchases := purchases st; usages := usages st;
       balances := (get_or_create_row u (balances st)).2;
       entities := entities st |}.
Proof.
  unfold exec, credit_summary, get_or_create. txn_unfold.
  destruct (get_or_create_row u (balances st)) as [[b created] tbl].
  reflexivity.
Qed.

Lemma step_consistent c st : consistent st → consistent (step c st).
Proof.
  intros Hc. destruct c as [u|u now|u amount description content_object now];
    simpl.
  - rewrite system_credit_summary_run. intros v. simpl.
    rewrite get_or_create_row_balance_of. apply (Hc v).
  - apply system_consistent_purchase_credit, Hc.
  - apply consistent_use_credits, Hc.
Qed.

Lemma step_nonnegative c st :
  (∀ v, 0 ≤ balance_of (balances st) v) →
  ∀ v, 0 ≤ balance_of (balances (step c st)) v.
Proof.
  intros Hst v. destruct c as [u|u now|u amount description content_object now];
    simpl.
  - rewrite system_credit_summary_run. simpl.
    rewrite get_or_create_row_balance_of. apply Hst.
  - unfold exec. rewrite system_purchase_credit_run. simpl.
    rewrite balance_of_insert. destruct (decide (u = v)); [|apply Hst].
    specialize (Hst u). unfold CREDIT_PURCHASE_AMOUNT. lia.
  - unfold exec.
    destruct (Z_le_gt_dec amount (balance_of (balances st) u)) as [Hle|Hgt].
    + rewrite use_credits_enough by exact Hle. simpl. rewrite balance_of_insert.
      destruct (decide (u = v)); [lia|apply Hst].
    + rewrite use_credits_short by lia. simpl.
      rewrite get_or_create_row_balance_of. apply Hst.
Qed.

Lemma step_entities c st : entities (step c st) = entities st.
Proof.
  destruct c as [u|u now|u amount description content_object now]; simpl.
  - rewrite system_credit_summary_run. reflexivity.
  - unfold exec. rewrite system_purchase_credit_run. reflexivity.
  - apply use_credits_entities.
Qed.


(** X8.  In helpers1.py the cached balance follows the logs: from a database
    in which every user's balance is that user's purchases minus usages, any
    sequence of summary, purchase and [use_credits] calls leads to such a
    database. *)
Theorem system_balance_matches_logs cs st u :
  consistent st →
  balance_of (balances (run cs st)) u
  = total (purchase_amount <$> purchases_of u (run cs st))
    - total (usage_amount <$> usages_of u (run cs st)).
Proof.
  intros Hc. revert st Hc u.
  induction cs as [|c cs IH]; intros st Hc u; simpl.
  - exact (Hc u).
  - apply IH, step_consistent, Hc.
Qed.

(** X9.  In helpers1.py no balance ever goes below zero: purchases add a fixed
    positive amount and [use_credits] subtracts only what the balance covers,
    so from balances that are all zero or more every sequence of calls, with
    any amounts, leads to balances that are all zero or more. *)
Theorem system_balances_stay_nonnegative cs st v :
  (∀ u, 0 ≤ balance_of (balances st) u) →
  0 ≤ balance_of (balances (run cs st)) v.
Proof.
  intros Hst. revert st Hst v.
  induction cs as [|c cs IH]; intros st Hst v; simpl.
  - apply Hst.
  - apply IH, step_nonnegative, Hst.
Qed.

(** None of the views of helpers1.py writes outside the three ledger
    tables: after any sequence of calls the tables of the other
    applications are what they were. *)
Theorem system_never_writes_entities cs st :
  entities (run cs st) = entities st.
Proof.
  revert st. induction cs as [|c cs IH]; intros st; simpl.
  - reflexivity.
  - rewrite IH. apply step_entities.
Qed.


End traces.

Lemma no_rows_consistent : consistent no_rows.
Proof. intros u. unfold balance_of, no_rows. simpl. rewrite lookup_empty. reflexivity. Qed.

Lemma no_rows_nonnegative : ∀ u, 0 ≤ balance_of (balances no_rows) u.
Proof. intros u. unfold balance_of, no_rows. simpl. rewrite lookup_empty. reflexivity. Qed.

Lemma system_balance_matches_logs_witness :
  consistent no_rows
  ∧ balance_of
      (balances (run [Purchase 1%nat 1%nat;
                      UseCredits 1%nat 300 "Create blog post: a" post_7 2%nat]
                   no_rows)) 1%nat
    = 5000 - 300.
Proof.
  split; [exact no_rows_consistent|].
  exact (system_balance_matches_logs
           [Purchase 1%nat 1%nat;
            UseCredits 1%nat 300 "Create blog post: a" post_7 2%nat]
           no_rows 1%nat no_rows_consistent).
Defined.

Lemma system_balances_stay_nonnegative_witness :
  (∀ u, 0 ≤ balance_of (balances no_rows) u)
  ∧ 0 ≤ balance_of
          (balances (run [UseCredits 1%nat (-300) "x" post_7 2%nat;
                          UseCredits 1%nat 500 "y" post_7 3%nat] no_rows)) 1%nat.
Proof.
  split; [exact no_rows_nonnegative|].
  exact (system_balances_stay_nonnegative
           [UseCredits 1%nat (-300) "x" post_7 2%nat;
            UseCredits 1%nat 500 "y" post_7 3%nat] no_rows 1%nat
           no_rows_nonnegative).
Defined.


End CreditSystemTraceProofs.

(** ** helpers3.py: the post pages and sequences of requests *)

Module PostPagesProofs.
Import PostBoost PostPages PostBoostProofs.

Implicit Types (st : State) (u v : User) (post_id : nat) (now : Timestamp)
  (post : Post) (c : Call) (cs : list Call).

Lemma post_list_run u st :
  post_list u st =
    (inr (RenderPostList (context_of u st)),
     {| purchases := purchases st; usages := usages st;
        balances := (get_or_create_row u (balances st)).2;
        posts := posts st |}).
Proof.
  unfold post_list, get_or_create, context_of. txn_unfold.
  pose proof (get_or_create_row_balance u (balances st)) as Hb.
  destruct (get_or_create_row u (balances st)) as [[b created] tbl].
  simpl in *. subst b. reflexivity.
Qed.

Lemma posts_of_elem u st post_id post :
  (post_id, post) ∈ posts_of u st
  ↔ posts st !! post_id = Some post ∧ post_user post = u.
Proof.
  unfold posts_of. rewrite list_elem_of_filter, elem_of_map_to_list. simpl.
  tauto.
Qed.

Lemma listed_posts_elem u st post_id post :
  (post_id, post) ∈ listed_posts (context_of u st)
  ↔ posts st !! post_id = Some post ∧ post_user post = u.
Proof.
  unfold context_of. simpl.
  rewrite (order_by_date_desc_perm (λ r : nat * Post, created_at r.2)).
  apply posts_of_elem.
Qed.

(** X11.  The post list shows exactly the posts of the user who asks, each
    once, newest first, together with that user's balance; serving it changes
    no post, no log row and no balance. *)
Theorem post_list_shows_own_posts u st :
  ∃ context,
    outcome (post_list u) st = inr (RenderPostList context)
    ∧ (∀ post_id post,
         (post_id, post) ∈ listed_posts context
         ↔ posts st !! post_id = Some post ∧ post_user post = u)
    ∧ NoDup (listed_posts context).*1
    ∧ StronglySorted (newer_first (λ r, created_at r.2)) (listed_posts context)
    ∧ current_balance context = balance_of (balances st) u
    ∧ posts (exec (post_list u) st) = posts st
    ∧ purchases (exec (post_list u) st) = purchases st
    ∧ usages (exec (post_list u) st) = usages st
    ∧ ∀ v, balance_of (balances (exec (post_list u) st)) v
           = balance_of (balances st) v.
Proof.
  exists (context_of u st). unfold outcome, exec. rewrite post_list_run. simpl.
  split; [reflexivity|]. split; [apply listed_posts_elem|].
  split; [|split; [apply order_by_date_desc_sorted|]].
  - rewrite (order_by_date_desc_perm (λ r : nat * Post, created_at r.2)).
    unfold posts_of. apply NoDup_fmap_fst.
    + intros i x y Hx Hy. apply list_elem_of_filter in Hx as [_ Hx].
      apply list_elem_of_filter in Hy as [_ Hy].
      apply elem_of_map_to_list in Hx, Hy. congruence.
    + apply NoDup_filter, NoDup_map_to_list.
  - repeat split. intros v. apply get_or_create_row_balance_of.
Qed.

Lemma blocks_form u st text created post_id :
  BoostFormBlock text created post_id ∈ blocks (page_of u st)
  ↔ ∃ post, posts st !! post_id = Some post ∧ post_user post = u
            ∧ is_boosted post = false
            ∧ content post = text ∧ created_at post = created.
Proof.
  unfold page_of, post_list_html. simpl. rewrite list_elem_of_fmap. split.
  - intros ([i post] & Hblock & Hin). apply listed_posts_elem in Hin as [Hp Hu].
    unfold post_block in Hblock. simpl in Hblock.
    destruct (is_boosted post) eqn:Hb; [discriminate|].
    injection Hblock as -> -> ->. eauto 10.
  - intros (post & Hp & Hu & Hb & <- & <-). exists (post_id, post). split.
    + unfold post_block. simpl. rewrite Hb. reflexivity.
    + apply listed_posts_elem. auto.
Qed.

Lemma blocks_boosted u st text created :
  BoostedBlock text created ∈ blocks (page_of u st)
  ↔ ∃ post_id post, posts st !! post_id = Some post ∧ post_user post = u
                    ∧ is_boosted post = true
                    ∧ content post = text ∧ created_at post = created.
Proof.
  unfold page_of, post_list_html. simpl. rewrite list_elem_of_fmap. split.
  - intros ([i post] & Hblock & Hin). apply listed_posts_elem in Hin as [Hp Hu].
    unfold post_block in Hblock. simpl in Hblock.
    destruct (is_boosted post) eqn:Hb; [|discriminate].
    injection Hblock as -> ->. eauto 10.
  - intros (post_id & post & Hp & Hu & Hb & <- & <-). exists (post_id, post).
    split.
    + unfold post_block. simpl. rewrite Hb. reflexivity.
    + apply listed_posts_elem. auto.
Qed.

(** X12.  The page of the post list offers the boost form for exactly the
    user's posts that are not boosted: a form that posts to [boost_post] for
    [post_id] is on the rendered page if and only if [post_id] is a post of
    the user whose flag is off; the page has one block per post of the user
    and shows the user's balance. *)
Theorem page_offers_boost_for_unboosted u st :
  ∃ context,
    outcome (post_list u) st = inr (RenderPostList context)
    ∧ (∀ text created post_id,
         BoostFormBlock text created post_id ∈ blocks (post_list_html context)
         ↔ ∃ post, posts st !! post_id = Some post ∧ post_user post = u
                   ∧ is_boosted post = false
                   ∧ content post = text ∧ created_at post = created)
    ∧ length (blocks (post_list_html context)) = length (posts_of u st)
    ∧ shown_balance (post_list_html context) = balance_of (balances st) u.
Proof.
  exists (context_of u st). unfold outcome. rewrite post_list_run.
  split; [reflexivity|].
  split; [intros; apply blocks_form|]. split; [|reflexivity].
  unfold post_list_html, context_of. simpl.
  rewrite length_fmap.
  rewrite (order_by_date_desc_perm (λ r : nat * Post, created_at r.2)).
  reflexivity.
Qed.

(** *** [boost_post]: refusals and the first boost *)

(** X13.  A boost request for a post that does not exist, or that belongs to
    someone else, is answered with [Http404] and leaves the whole database
    as it was; not even the requester's balance row is created. *)
Theorem boost_post_not_found u post_id now st :
  (∀ post, posts st !! post_id = Some post → post_user post ≠ u) →
  boost_post u post_id now st = (inl Http404, st).
Proof.
  intros Hnot. destruct (posts st !! post_id) as [post|] eqn:Hp.
  - eapply boost_post_foreign; [exact Hp|]. apply Hnot. reflexivity.
  - apply boost_post_missing, Hp.
Qed.

Lemma boost_post_not_found_witness :
  (∀ post, posts two_posts !! 7%nat = Some post → post_user post ≠ 2%nat)
  ∧ boost_post 2%nat 7%nat 9%nat two_posts = (inl Http404, two_posts).
Proof.
  assert (∀ post, posts two_posts !! 7%nat = Some post → post_user post ≠ 2%nat)
    as Hnot by (intros post [= <-]; discriminate).
  split; [exact Hnot|].
  exact (boost_post_not_found 2%nat 7%nat 9%nat two_posts Hnot).
Defined.

(** X14.  A boost request by the owner whose balance is below [BOOST_COST]
    gets the redirect with a warning and changes nothing that matters: the
    post keeps its flag, no usage or purchase row is written and every
    balance keeps its value. *)
Theorem boost_post_short_of_credit u post_id now st post :
  posts st !! post_id = Some post → post_user post = u →
  balance_of (balances st) u < BOOST_COST →
  outcome (boost_post u post_id now) st
    = inr (Redirect "credit_tracker:post_list" warning)
  ∧ posts (exec (boost_post u post_id now) st) = posts st
  ∧ usages (exec (boost_post u post_id now) st) = usages st
  ∧ purchases (exec (boost_post u post_id now) st) = purchases st
  ∧ ∀ v, balance_of (balances (exec (boost_post u post_id now) st)) v
         = balance_of (balances st) v.
Proof.
  intros Hp Hu Hlt. unfold outcome, exec.
  rewrite (boost_post_short _ _ _ _ _ Hp Hu Hlt). simpl. repeat split.
  intros v. apply get_or_create_row_balance_of.
Qed.

Lemma boost_post_short_of_credit_witness :
  balance_of (balances short_of_credit) 1%nat < BOOST_COST
  ∧ outcome (boost_post 1%nat 7%nat 9%nat) short_of_credit
    = inr (Redirect "credit_tracker:post_list" warning)
  ∧ posts (exec (boost_post 1%nat 7%nat 9%nat) short_of_credit)
    = posts short_of_credit.
Proof.
  assert (balance_of (balances short_of_credit) 1%nat < BOOST_COST) as Hlt
    by reflexivity.
  pose proof (boost_post_short_of_credit 1%nat 7%nat 9%nat short_of_credit _
                eq_refl eq_refl Hlt) as (Ho & Hp & _).
  split; [exact Hlt|]. split; [exact Ho|exact Hp].
Defined.

(** X15.  An accepted boost changes one flag and nothing else about the
    posts: the post named is stored with [is_boosted] set and with its owner,
    text and date as before, every other post is untouched, the requester
    pays [BOOST_COST], no other balance changes and one usage row is
    appended. *)
Theorem boost_post_sets_one_flag u post_id now st post :
  posts st !! post_id = Some post → post_user post = u →
  BOOST_COST ≤ balance_of (balances st) u →
  outcome (boost_post u post_id now) st
    = inr (Redirect "credit_tracker:post_list" success)
  ∧ posts (exec (boost_post u post_id now) st) !! post_id
    = Some {| post_user := post_user post; content := content post;
              is_boosted := true; created_at := created_at post |}
  ∧ (∀ other, other ≠ post_id →
       posts (exec (boost_post u post_id now) st) !! other = posts st !! other)
  ∧ balance_of (balances (exec (boost_post u post_id now) st)) u
    = balance_of (balances st) u - BOOST_COST
  ∧ (∀ v, v ≠ u →
       balances (exec (boost_post u post_id now) st) !! v = balances st !! v)
  ∧ usages (exec (boost_post u post_id now) st)
    = usages st ++ [boost_row u post_id now]
  ∧ purchases (exec (boost_post u post_id now) st) = purchases st.
Proof.
  intros Hp Hu Hle. unfold outcome, exec.
  rewrite (boost_post_enough _ _ _ _ _ Hp Hu Hle). simpl.
  split; [reflexivity|]. split; [apply lookup_insert_eq|].
  split; [intros other Ho; apply lookup_insert_ne; congruence|].
  split; [rewrite balance_of_insert, decide_True by reflexivity; reflexivity|].
  split; [intros v Hv; apply lookup_insert_ne; congruence|].
  split; reflexivity.
Qed.

Lemma boost_post_sets_one_flag_witness :
  BOOST_COST ≤ balance_of (balances two_posts) 1%nat
  ∧ (is_boosted <$> posts (exec (boost_post 1%nat 7%nat 9%nat) two_posts) !! 7%nat)
    = Some true
  ∧ (is_boosted <$> posts (exec (boost_post 1%nat 7%nat 9%nat) two_posts) !! 8%nat)
    = Some false.
Proof.
  assert (BOOST_COST ≤ balance_of (balances two_posts) 1%nat) as Hle
    by (vm_compute; discriminate).
  pose proof (boost_post_sets_one_flag 1%nat 7%nat 9%nat two_posts _
                eq_refl eq_refl Hle) as (_ & Hset & Hother & _).
  split; [exact Hle|]. split.
  - rewrite Hset. reflexivity.
  - rewrite (Hother 8%nat) by discriminate. reflexivity.
Defined.

(** X16.  After an accepted boost the post list shows the post as boosted:
    the page the owner gets next has no boost form for that post and has its
    block marked "Boosted". *)
Theorem boosted_post_loses_its_form u post_id now st post :
  posts st !! post_id = Some post → post_user post = u →
  BOOST_COST ≤ balance_of (balances st) u →
  ∃ context,
    outcome (post_list u) (exec (boost_post u post_id now) st)
      = inr (RenderPostList context)
    ∧ (∀ text created,
         BoostFormBlock text created post_id ∉ blocks (post_list_html context))
    ∧ BoostedBlock (content post) (created_at post)
        ∈ blocks (post_list_html context).
Proof.
  intros Hp Hu Hle.
  exists (context_of u (exec (boost_post u post_id now) st)).
  unfold outcome at 1. rewrite post_list_run. split; [reflexivity|].
  unfold exec. rewrite (boost_post_enough _ _ _ _ _ Hp Hu Hle).
  split.
  - intros text created Hin. apply blocks_form in Hin as (p & Hq & _ & Hb & _).
    simpl in Hq. rewrite lookup_insert_eq in Hq. injection Hq as <-.
    discriminate Hb.
  - apply blocks_boosted. exists post_id, (set_boosted post). simpl.
    rewrite lookup_insert_eq. repeat split. exact Hu.
Qed.

Lemma boosted_post_loses_its_form_witness :
  BOOST_COST ≤ balance_of (balances two_posts) 1%nat
  ∧ ∃ context,
      outcome (post_list 1%nat) (exec (boost_post 1%nat 7%nat 9%nat) two_posts)
        = inr (RenderPostList context)
      ∧ (∀ text created,
           BoostFormBlock text created 7%nat ∉ blocks (post_list_html context))
      ∧ BoostedBlock "first" 3%nat ∈ blocks (post_list_html context).
Proof.
  assert (BOOST_COST ≤ balance_of (balances two_posts) 1%nat) as Hle
    by (vm_compute; discriminate).
  split; [exact Hle|].
  exact (boosted_post_loses_its_form 1%nat 7%nat 9%nat two_posts _
           eq_refl eq_refl Hle).
Defined.

(** *** [create_post] *)

Lemma create_post_created u text post_id now st :
  posts st !! post_id = None →
  create_post u POST (Some text) post_id now st =
    (inr (Plain (Redirect "credit_tracker:post_list" success)),
     {| purchases := purchases st; usages := usages st; balances := balances st;
        posts := <[post_id := new_post u text now]> (posts st) |}).
Proof. intros Hp. unfold create_post. rewrite Hp. reflexivity. Qed.

Lemma create_post_cases u method content post_id now st :
  exec (create_post u method content post_id now) st = st
  ∨ ∃ text, method = POST ∧ content = Some text ∧ posts st !! post_id = None
            ∧ exec (create_post u method content post_id now) st
              = {| purchases := purchases st; usages := usages st;
                   balances := balances st;
                   posts := <[post_id := new_post u text now]> (posts st) |}.
Proof.
  unfold exec. destruct method; [left; reflexivity|].
  destruct content as [text|]; [|left; reflexivity].
  destruct (posts st !! post_id) eqn:Hp.
  - left. unfold create_post. rewrite Hp. reflexivity.
  - right. exists text. rewrite create_post_created by exact Hp. auto.
Qed.

(** A posted text is stored as a new post: it belongs to the requester,
    carries the text and the time of the request, starts unboosted, and is
    found under the key it was given; every other post and the whole ledger
    are untouched, and the answer is the redirect to the post list. *)
Theorem create_post_stores_the_post u (text : string) post_id now st :
  posts st !! post_id = None →
  outcome (create_post u POST (Some text) post_id now) st
    = inr (Plain (Redirect "credit_tracker:post_list" success))
  ∧ posts (exec (create_post u POST (Some text) post_id now) st) !! post_id
    = Some {| post_user := u; content := text; is_boosted := false;
              created_at := now |}
  ∧ (∀ other, other ≠ post_id →
       posts (exec (create_post u POST (Some text) post_id now) st) !! other
       = posts st !! other)
  ∧ purchases (exec (create_post u POST (Some text) post_id now) st)
    = purchases st
  ∧ usages (exec (create_post u POST (Some text) post_id now) st) = usages st
  ∧ balances (exec (create_post u POST (Some text) post_id now) st)
    = balances st.
Proof.
  intros Hp. unfold outcome, exec. rewrite create_post_created by exact Hp.
  simpl. split; [reflexivity|]. split; [apply lookup_insert_eq|].
  split; [intros other Ho; apply lookup_insert_ne; congruence|].
  repeat split.
Qed.

Lemma create_post_stores_the_post_witness :
  posts two_posts !! 9%nat = None
  ∧ posts (exec (create_post 2%nat POST (Some "third") 9%nat 5%nat) two_posts)
      !! 9%nat
    = Some {| post_user := 2%nat; content := "third"; is_boosted := false;
              created_at := 5%nat |}.
Proof.
  assert (posts two_posts !! 9%nat = None) as Hp by reflexivity.
  split; [exact Hp|].
  exact (proj1 (proj2 (create_post_stores_the_post 2%nat "third" 9%nat 5%nat
                         two_posts Hp))).
Defined.

(** X17.  [create_post] writes nothing unless a text was posted: a [GET]
    renders the form, and a [POST] without the [content] field ends in a
    server error, in both cases with the database exactly as it was. *)
Theorem create_post_without_text u method (content : option string)
    post_id now st :
  method = GET ∨ content = None →
  exec (create_post u method content post_id now) st = st
  ∧ outcome (create_post u method content post_id now) st
    = inr (match method with GET => RenderCreatePost | POST => ServerError end).
Proof.
  unfold exec, outcome. intros [->| ->].
  - split; reflexivity.
  - destruct method; split; reflexivity.
Qed.

Lemma create_post_without_text_witness :
  (POST = GET ∨ @None string = None)
  ∧ exec (create_post 1%nat POST None 9%nat 5%nat) two_posts = two_posts.
Proof.
  assert (POST = GET ∨ @None string = None) as H by (right; reflexivity).
  split; [exact H|].
  exact (proj1 (create_post_without_text 1%nat POST None 9%nat 5%nat two_posts H)).
Defined.

(** X18.  A new post can be boosted by its author and by nobody else: right
    after [create_post], a boost request by the author with a balance of at
    least [BOOST_COST] is accepted and sets the flag, while the same request
    by any other user is answered with [Http404] and changes nothing. *)
Theorem author_can_boost_new_post u (text : string) post_id now_1 now_2 st :
  posts st !! post_id = None →
  BOOST_COST ≤ balance_of (balances st) u →
  let st' := exec (create_post u POST (Some text) post_id now_1) st in
  outcome (boost_post u post_id now_2) st'
    = inr (Redirect "credit_tracker:post_list" success)
  ∧ posts (exec (boost_post u post_id now_2) st') !! post_id
    = Some {| post_user := u; content := text; is_boosted := true;
              created_at := now_1 |}
  ∧ balance_of (balances (exec (boost_post u post_id now_2) st')) u
    = balance_of (balances st) u - BOOST_COST
  ∧ ∀ v, v ≠ u → boost_post v post_id now_2 st' = (inl Http404, st').
Proof.
  intros Hp Hle st'.
  assert (posts st' !! post_id = Some (new_post u text now_1)) as Hnew.
  { subst st'. unfold exec. rewrite create_post_created by exact Hp.
    apply lookup_insert_eq. }
  assert (balances st' = balances st) as Hbal.
  { subst st'. unfold exec. rewrite create_post_created by exact Hp.
    reflexivity. }
  assert (BOOST_COST ≤ balance_of (balances st') u) as Hle'
    by (rewrite Hbal; exact Hle).
  clearbody st'. unfold outcome, exec.
  rewrite (boost_post_enough u post_id now_2 st' _ Hnew eq_refl Hle'). simpl.
  split; [reflexivity|]. split; [apply lookup_insert_eq|].
  split.
  - rewrite balance_of_insert, decide_True by reflexivity. rewrite Hbal.
    reflexivity.
  - intros v Hv. eapply boost_post_foreign; [exact Hnew|]. simpl. congruence.
Qed.

Lemma author_can_boost_new_post_witness :
  posts two_posts !! 9%nat = None
  ∧ BOOST_COST ≤ balance_of (balances two_posts) 1%nat
  ∧ outcome (boost_post 1%nat 9%nat 6%nat)
            (exec (create_post 1%nat POST (Some "third") 9%nat 5%nat) two_posts)
    = inr (Redirect "credit_tracker:post_list" success).
Proof.
  assert (posts two_posts !! 9%nat = None) as Hp by reflexivity.
  assert (BOOST_COST ≤ balance_of (balances two_posts) 1%nat) as Hle
    by (vm_compute; discriminate).
  split; [exact Hp|]. split; [exact Hle|].
  exact (proj1 (author_can_boost_new_post 1%nat "third" 9%nat 5%nat 6%nat
                  two_posts Hp Hle)).
Defined.

(** *** Sequences of requests to helpers3.py *)

Lemma boost_credit_summary_run u st :
  exec (credit_summary u) st =
    {| purchases := purchases st; usages := usages st;
       balances := (get_or_create_row u (balances st)).2;
       posts := posts st |}.
Proof.
  unfold exec, credit_summary, get_or_create. txn_unfold.
  destruct (get_or_create_row u (balances st)) as [[b created] tbl].
  reflexivity.
Qed.

Lemma posts_step_consistent c st : consistent st → consistent (step c st).
Proof.
  intros Hc.
  destruct c as [u|u now|u post_id now|u|u method content post_id now]; simpl.
  - rewrite boost_credit_summary_run. intros v. simpl.
    rewrite get_or_create_row_balance_of. apply (Hc v).
  - apply boost_consistent_purchase_credit, Hc.
  - apply consistent_boost_post, Hc.
  - unfold exec. rewrite post_list_run. intros v. simpl.
    rewrite get_or_create_row_balance_of. apply (Hc v).
  - destruct (create_post_cases u method content post_id now st)
      as [->|(text & _ & _ & _ & ->)]; [exact Hc|].
    intros v. apply (Hc v).
Qed.

Lemma posts_step_nonnegative c st :
  (∀ v, 0 ≤ balance_of (balances st) v) →
  ∀ v, 0 ≤ balance_of (balances (step c st)) v.
Proof.
  intros Hst v.
  destruct c as [u|u now|u post_id now|u|u method content post_id now]; simpl.
  - rewrite boost_credit_summary_run. simpl.
    rewrite get_or_create_row_balance_of. apply Hst.
  - unfold exec. rewrite boost_purchase_credit_run. simpl.
    rewrite balance_of_insert. destruct (decide (u = v)); [|apply Hst].
    specialize (Hst u). unfold CREDIT_PURCHASE_AMOUNT. lia.
  - destruct (decide (u = v)) as [->|Hne].
    + apply boost_post_keeps_balance_nonnegative, Hst.
    + unfold exec.
      destruct (boost_post_cases u post_id now st)
        as [->|[(post & Hp & Hu & Hle)|(post & Hp & Hu & Hlt)]].
      * apply Hst.
      * rewrite (boost_post_enough _ _ _ _ _ Hp Hu Hle). simpl.
        rewrite balance_of_insert, decide_False by exact Hne. apply Hst.
      * rewrite (boost_post_short _ _ _ _ _ Hp Hu Hlt). simpl.
        rewrite get_or_create_row_balance_of. apply Hst.
  - unfold exec. rewrite post_list_run. simpl.
    rewrite get_or_create_row_balance_of. apply Hst.
  - destruct (create_post_cases u method content post_id now st)
      as [->|(text & _ & _ & _ & ->)]; apply Hst.
Qed.

Lemma step_keeps_post c st post_id post :
  posts st !! post_id = Some post →
  ∃ post', posts (step c st) !! post_id = Some post' ∧ kept post post'.
Proof.
  intros Hp.
  assert (kept post post) as Hsame by (repeat split; auto).
  destruct c as [u|u now|u id now|u|u method content id now]; simpl.
  - rewrite boost_credit_summary_run. simpl. eauto.
  - unfold exec. rewrite boost_purchase_credit_run. simpl. eauto.
  - destruct (boost_post_touches_one_post u id now st)
      as [->|(p & Hq & ->)]; [eauto|].
    destruct (decide (id = post_id)) as [->|Hne].
    + rewrite lookup_insert_eq. rewrite Hp in Hq. injection Hq as <-.
      eexists. split; [reflexivity|]. repeat split; auto.
    + rewrite lookup_insert_ne by exact Hne. eauto.
  - unfold exec. rewrite post_list_run. simpl. eauto.
  - destruct (create_post_cases u method content id now st)
      as [->|(text & _ & _ & Hfresh & ->)]; [eauto|].
    simpl. rewrite lookup_insert_ne by congruence. eauto.
Qed.

(** X19.  In helpers3.py the cached balance follows the logs: any sequence of
    summary, purchase, boost, post-list and create-post requests leads from a
    database in which every balance is purchases minus usages to another such
    database. *)
Theorem posts_balance_matches_logs cs st u :
  consistent st →
  balance_of (balances (run cs st)) u
  = total (purchase_amount <$> purchases_of u (run cs st))
    - total (usage_amount <$> usages_of u (run cs st)).
Proof.
  intros Hc. revert st Hc u.
  induction cs as [|c cs IH]; intros st Hc u; simpl.
  - exact (Hc u).
  - apply IH, posts_step_consistent, Hc.
Qed.

(** X20.  In helpers3.py no balance ever goes below zero: from balances that
    are all zero or more, every sequence of requests leads to balances that
    are all zero or more. *)
Theorem posts_balances_stay_nonnegative cs st v :
  (∀ u, 0 ≤ balance_of (balances st) u) →
  0 ≤ balance_of (balances (run cs st)) v.
Proof.
  intros Hst. revert st Hst v.
  induction cs as [|c cs IH]; intros st Hst v; simpl.
  - apply Hst.
  - apply IH, posts_step_nonnegative, Hst.
Qed.

(** X21.  Posts are never deleted or edited, and a boost is never undone:
    whatever requests follow, a stored post is still stored under its key
    with the same owner, text and date, and if it was boosted it still is. *)
Theorem posts_are_kept cs st post_id post :
  posts st !! post_id = Some post →
  ∃ post',
    posts (run cs st) !! post_id = Some post'
    ∧ post_user post' = post_user post
    ∧ content post' = content post
    ∧ created_at post' = created_at post
    ∧ (is_boosted post = true → is_boosted post' = true).
Proof.
  revert st post. induction cs as [|c cs IH]; intros st post Hp; simpl.
  - exists post. repeat split; auto.
  - destruct (step_keeps_post c st post_id post Hp)
      as (p1 & Hp1 & Hu1 & Hc1 & Hd1 & Hb1).
    destruct (IH (step c st) p1 Hp1) as (p2 & Hp2 & Hu2 & Hc2 & Hd2 & Hb2).
    exists p2. split; [exact Hp2|]. repeat split; try congruence. auto.
Qed.

(** X22.  Every boost is charged: [n] boost requests in a row by the owner of
    a post, with a balance of at least [n] times [BOOST_COST], take exactly
    that much, append [n] usage rows, one per request, and leave all other
    posts alone; the post is boosted after the first of them. *)
Theorem boosts_are_charged_each_time u post_id (nows : list Timestamp) st post :
  posts st !! post_id = Some post → post_user post = u →
  BOOST_COST * Z.of_nat (length nows) ≤ balance_of (balances st) u →
  let st' := run (Boost u post_id <$> nows) st in
  balance_of (balances st') u
    = balance_of (balances st) u - BOOST_COST * Z.of_nat (length nows)
  ∧ usages st' = usages st ++ (boost_row u post_id <$> nows)
  ∧ (∀ other, other ≠ post_id → posts st' !! other = posts st !! other)
  ∧ (nows ≠ [] → is_boosted <$> posts st' !! post_id = Some true).
Proof.
  intros Hp Hu Hle st'. subst st'.
  assert (∀ l s, run (Boost u post_id <$> l) s
                 = foldl (λ s now, exec (boost_post u post_id now) s) s l)
    as Hfold.
  { unfold run. induction l as [|x l IHl]; intros s; simpl;
      [reflexivity|apply IHl]. }
  rewrite Hfold. destruct nows as [|now nows].
  - simpl. rewrite app_nil_r. repeat split; [lia|congruence].
  - assert (BOOST_COST ≤ balance_of (balances st) u) as Hone
      by (unfold BOOST_COST in *; simpl length in Hle; lia).
    cbn [foldl]. set (s1 := exec (boost_post u post_id now) st).
    assert (s1 = {| purchases := purchases st;
                    usages := usages st ++ [boost_row u post_id now];
                    balances := <[u := balance_of (balances st) u - BOOST_COST]>
                                  (balances st);
                    posts := <[post_id := set_boosted post]> (posts st) |})
      as Hs1.
    { subst s1. unfold exec.
      rewrite (boost_post_enough _ _ _ _ _ Hp Hu Hone). reflexivity. }
    assert (posts s1 !! post_id = Some (set_boosted post)) as Hp1
      by (rewrite Hs1; apply lookup_insert_eq).
    assert (balance_of (balances s1) u = balance_of (balances st) u - BOOST_COST)
      as Hb1.
    { rewrite Hs1. simpl. rewrite balance_of_insert, decide_True by reflexivity.
      reflexivity. }
    destruct (boost_post_repeatedly u post_id nows s1 (set_boosted post)
                Hp1 Hu eq_refl) as (Hbal & Hus & Hps).
    { rewrite Hb1. unfold BOOST_COST in *. simpl length in Hle. lia. }
    rewrite Hbal, Hus, Hps, Hb1. clear Hbal Hus Hps Hp1 Hb1.
    rewrite Hs1. simpl.
    split; [unfold BOOST_COST; lia|].
    split; [rewrite <- app_assoc; reflexivity|].
    split; [intros other Ho; apply lookup_insert_ne; congruence|].
    intros _. rewrite lookup_insert_eq. reflexivity.
Qed.

Lemma two_posts_consistent : consistent two_posts.
Proof.
  intros u. unfold balance_of, two_posts, purchases_of, usages_of. simpl.
  destruct (decide (u = 1%nat)) as [->|Hne].
  - reflexivity.
  - rewrite lookup_singleton_ne by congruence.
    rewrite filter_cons_False by (simpl; congruence). reflexivity.
Qed.

Lemma two_posts_nonnegative : ∀ u, 0 ≤ balance_of (balances two_posts) u.
Proof.
  intros u. unfold balance_of, two_posts. simpl.
  destruct (decide (u = 1%nat)) as [->|Hne].
  - vm_compute. discriminate.
  - rewrite lookup_singleton_ne by congruence. reflexivity.
Qed.

Lemma posts_balance_matches_logs_witness :
  consistent two_posts
  ∧ balance_of
      (balances (run [Boost 1%nat 7%nat 5%nat; Purchase 1%nat 6%nat;
                      CreatePost 1%nat POST (Some "third") 9%nat 7%nat;
                      Boost 1%nat 9%nat 8%nat] two_posts)) 1%nat
    = 10000 - 200.
Proof.
  split; [exact two_posts_consistent|].
  exact (posts_balance_matches_logs
           [Boost 1%nat 7%nat 5%nat; Purchase 1%nat 6%nat;
            CreatePost 1%nat POST (Some "third") 9%nat 7%nat;
            Boost 1%nat 9%nat 8%nat] two_posts 1%nat two_posts_consistent).
Defined.

Lemma posts_balances_stay_nonnegative_witness :
  (∀ u, 0 ≤ balance_of (balances two_posts) u)
  ∧ 0 ≤ balance_of
          (balances (run [Boost 2%nat 7%nat 5%nat; Boost 1%nat 7%nat 6%nat]
                       two_posts)) 1%nat.
Proof.
  split; [exact two_posts_nonnegative|].
  exact (posts_balances_stay_nonnegative
           [Boost 2%nat 7%nat 5%nat; Boost 1%nat 7%nat 6%nat] two_posts 1%nat
           two_posts_nonnegative).
Defined.

Lemma posts_are_kept_witness :
  posts boosted_post !! 7%nat
    = Some {| post_user := 1%nat; content := "hello"; is_boosted := true;
              created_at := 1%nat |}
  ∧ ∃ post',
      posts (run [Boost 1%nat 7%nat 5%nat;
                  CreatePost 2%nat POST (Some "other") 7%nat 6%nat]
               boosted_post) !! 7%nat = Some post'
      ∧ post_user post' = 1%nat ∧ content post' = "hello"
      ∧ created_at post' = 1%nat
      ∧ (true = true → is_boosted post' = true).
Proof.
  split; [reflexivity|].
  exact (posts_are_kept
           [Boost 1%nat 7%nat 5%nat;
            CreatePost 2%nat POST (Some "other") 7%nat 6%nat]
           boosted_post 7%nat _ eq_refl).
Defined.

Lemma boosts_are_charged_each_time_witness :
  BOOST_COST * Z.of_nat (length [5%nat; 6%nat; 7%nat])
    ≤ balance_of (balances two_posts) 1%nat
  ∧ balance_of
      (balances (run (Boost 1%nat 7%nat <$> [5%nat; 6%nat; 7%nat]) two_posts))
      1%nat
    = 4700
  ∧ usages (run (Boost 1%nat 7%nat <$> [5%nat; 6%nat; 7%nat]) two_posts)
    = [boost_row 1%nat 7%nat 5%nat; boost_row 1%nat 7%nat 6%nat;
       boost_row 1%nat 7%nat 7%nat].
Proof.
  assert (BOOST_COST * Z.of_nat (length [5%nat; 6%nat; 7%nat])
            ≤ balance_of (balances two_posts) 1%nat) as Hle
    by (vm_compute; discriminate).
  pose proof (boosts_are_charged_each_time 1%nat 7%nat [5%nat; 6%nat; 7%nat]
                two_posts _ eq_refl eq_refl Hle) as (Hbal & Hus & _).
  split; [exact Hle|]. split; [exact Hbal|exact Hus].
Defined.

End PostPagesProofs.
